(** * EarlyPrint tutorial notebooks: a verification development

    The repository is a set of Python notebooks (exported as scripts under
    [_build/jupyter_execute/]) and one helper script, [1666_texts/get_texts.py].
    They parse TEI-XML with lxml, tokenize, count words and aggregate
    metadata.  This file embeds the parts of those scripts that carry logic:

    - [Py]        exceptions, outcomes and [str.lower];
    - [Xml]       the lxml element tree and the queries the scripts use;
    - [Run]       a state-and-exception monad that also records the
                  external calls of a run;
    - [EpXml]     the sentence loop of ep_xml.py (cell In[14]);
    - [Word2Vec]  [get_sentences] and its driver loop (word2vec.py);
    - [Tokens]    the tokenizing comprehension, [Counter] and the count
                  table of tf_idf.py and similarity.py;
    - [Metadata]  the metadata loops of metadata.py and similarity.py;
    - [Scripts]   the external calls of every script, in program order,
                  and the inventory of their try/except blocks;
    - [Examples]  sample documents and worlds to run the model on.

    Library code (lxml, pandas, collections.Counter, str methods) is not part
    of the repository; it is modelled by its documented behaviour on the
    inputs the scripts give it, and each such definition says so. *)

From Stdlib Require Import String Ascii List Arith Lia Bool.
From stdpp Require Import base option list gmap strings.
Import ListNotations.

Local Open Scope string_scope.
Local Open Scope list_scope.

(* ===================================================================== *)
(** * Exceptions and outcomes                                            *)
(* ===================================================================== *)

Module Py.

(** The exception classes a run of these scripts can meet.  [ParseError]
    stands for what [etree.parse] raises on an unreadable or ill-formed
    file (OSError, XMLSyntaxError). *)
Inductive Exc : Type :=
  | AttributeError
  | ParseError
  | OtherError.

Inductive Outcome (A : Type) : Type :=
  | Ok (a : A)
  | Raise (e : Exc).
Arguments Ok {A} a.
Arguments Raise {A} e.

Definition is_ok {A} (o : Outcome A) : bool :=
  match o with Ok _ => true | Raise _ => false end.

(** [str.lower] applied to a value that may be [None]: attribute access on
    [None] raises AttributeError before any call happens.  [lower] is the
    library's case mapping on [str]. *)
Definition lower_method (lower : string -> string) (v : option string)
  : Outcome string :=
  match v with
  | Some s => Ok (lower s)
  | None => Raise AttributeError
  end.

(** An ASCII instance of [str.lower], used to run the model on examples. *)
Definition ascii_lower_char (c : ascii) : ascii :=
  let n := nat_of_ascii c in
  if (65 <=? n)%nat && (n <=? 90)%nat then ascii_of_nat (n + 32) else c.

Fixpoint ascii_lower (s : string) : string :=
  match s with
  | EmptyString => EmptyString
  | String c s' => String (ascii_lower_char c) (ascii_lower s')
  end.

End Py.

(* ===================================================================== *)
(** * The lxml element tree                                              *)
(* ===================================================================== *)

Module Xml.
Import Py.

(** A qualified tag name: namespace URI (empty when there is none) and
    local name, i.e. lxml's [{ns}local]. *)
Record QName : Type := mkQName { qns : string; qlocal : string }.

Definition tei_ns : string := "http://www.tei-c.org/ns/1.0".
Definition tei (local : string) : QName := mkQName tei_ns local.

(** An element: tag, attribute dictionary, text (Python [None] when the
    element has no text) and child elements in document order.  The scripts
    never read tail text; documents are taken to hold no comments or
    processing instructions, as the EarlyPrint files do. *)
#[warnings="-register-all"]
Inductive Element : Type :=
  | Elem (tag : QName) (attrib : gmap string string)
         (text : option string) (children : list Element).

Definition tag (e : Element) : QName :=
  match e with Elem t _ _ _ => t end.
Definition attrib (e : Element) : gmap string string :=
  match e with Elem _ a _ _ => a end.
Definition text (e : Element) : option string :=
  match e with Elem _ _ t _ => t end.
Definition children (e : Element) : list Element :=
  match e with Elem _ _ _ c => c end.

(** What [element.get(key, default)] can return in these scripts: an
    attribute value, a text used as default, [None], or (word2vec.py) the
    element that was passed as the default. *)
Inductive PyVal : Type :=
  | PNone
  | PStr (s : string)
  | PElem (e : Element).

(** [e.get(key, default)]: the attribute value when present, else the
    default. *)
Definition get (e : Element) (key : string) (default : PyVal) : PyVal :=
  match attrib e !! key with
  | Some v => PStr v
  | None => default
  end.

(** [e.get(key, e.text)] and [e.get(key)], with a [str]-or-[None] result. *)
Definition get_text (e : Element) (key : string) (default : option string)
  : option string :=
  match attrib e !! key with
  | Some v => Some v
  | None => default
  end.

(** [v == s] for a [str] literal [s]: only a [str] with the same characters
    compares equal; [None] and an lxml element (which defines no [__eq__],
    so the comparison falls back to identity) do not. *)
Definition py_eq_str (v : PyVal) (s : string) : bool :=
  match v with
  | PStr s' => String.eqb s' s
  | PNone => false
  | PElem _ => false
  end.

(** ['unit' in tag.attrib]. *)
Definition has_attrib (e : Element) (key : string) : bool :=
  bool_decide (is_Some (attrib e !! key)).

(** Tag tests: [{*}w] matches the local name in any namespace,
    [tei:name] matches the TEI namespace and the local name. *)
Definition matches_any_ns (local : string) (e : Element) : bool :=
  String.eqb (qlocal (tag e)) local.
Definition matches_tei (local : string) (e : Element) : bool :=
  String.eqb (qns (tag e)) tei_ns && String.eqb (qlocal (tag e)) local.

(** Proper descendants in document order. *)
Fixpoint descendants (e : Element) : list Element :=
  match e with
  | Elem _ _ _ cs =>
      (fix go (l : list Element) : list Element :=
         match l with
         | [] => []
         | c :: l' => (c :: descendants c) ++ go l'
         end) cs
  end.

(** [e.iter()]: the element itself, then its descendants. *)
Definition iter (e : Element) : list Element := e :: descendants e.

(** [e.iter()] where every element comes with what [getprevious()] returns
    on it: its preceding sibling, or [None] for a first child (and for the
    root). *)
Fixpoint iter_prev (prev : option Element) (e : Element)
  : list (option Element * Element) :=
  match e with
  | Elem _ _ _ cs =>
      (prev, e) ::
      (fix go (p : option Element) (l : list Element)
         : list (option Element * Element) :=
         match l with
         | [] => []
         | c :: l' => iter_prev p c ++ go (Some c) l'
         end) None cs
  end.

(** [root.findall(".//{*}w")]: descendants with local name [w]. *)
Definition findall_any_ns (local : string) (root : Element) : list Element :=
  filter (fun e => matches_any_ns local e = true) (descendants root).

(** [root.xpath("//tei:w|//tei:pc")]: an absolute path, so the root element
    itself is a candidate; the union comes back in document order. *)
Definition xpath_w_or_pc (root : Element) : list Element :=
  filter (fun e => matches_tei "w" e || matches_tei "pc" e = true) (iter root).

(** [root.iter('{*}w')] paired with [getprevious()]. *)
Definition iter_w_prev (root : Element) : list (option Element * Element) :=
  filter (fun pe => matches_any_ns "w" (snd pe) = true) (iter_prev None root).

(** ElementPath [".//tei:a//tei:b"]: for every [a] below the root, in
    document order, every [b] below it. *)
Definition findall_desc_desc (a b : string) (root : Element) : list Element :=
  flat_map (fun x => filter (fun e => matches_tei b e = true) (descendants x))
           (filter (fun e => matches_tei a e = true) (descendants root)).

(** [find] is the first result of the same search, or [None]. *)
Definition find_desc_desc (a b : string) (root : Element) : option Element :=
  head (findall_desc_desc a b root).

(** ElementPath [".//tei:person[@type='printer']/tei:persName"]. *)
Definition findall_printers (root : Element) : list Element :=
  flat_map (fun x => filter (fun e => matches_tei "persName" e = true) (children x))
           (filter (fun e => matches_tei "person" e
                             && bool_decide (attrib e !! "type" = Some "printer") = true)
                   (descendants root)).

(** [x.text] where [x] is the result of a [find]: attribute access on
    [None] raises AttributeError. *)
Definition text_of_found (x : option Element) : Outcome (option string) :=
  match x with
  | Some e => Ok (text e)
  | None => Raise AttributeError
  end.

(** [x.get(key)] where [x] is the result of a [find]. *)
Definition get_of_found (x : option Element) (key : string)
  : Outcome (option string) :=
  match x with
  | Some e => Ok (get_text e key None)
  | None => Raise AttributeError
  end.

End Xml.

(* ===================================================================== *)
(** * Runs: external calls, globals and exceptions                       *)
(* ===================================================================== *)

Module Run.
Import Py Xml.

(** File formats: the two the scripts write, and PNG, which the prose
    description of the repository names. *)
Inductive Format : Type := Csv | Png | Html.

(** The calls by which a script touches the world outside the interpreter. *)
Inductive Effect : Type :=
  | GlobFiles (pattern : string)            (* glob.glob(pattern) *)
  | OpenRead (path : string)                (* open(path, 'r') *)
  | ParseXml (path : string)                (* etree.parse(path, parser) *)
  | HttpGet (url : string)                  (* requests.get(url) *)
  | Subprocess (command : string)           (* subprocess.call(command, shell=True) *)
  | WriteFile (fmt : Format) (path : string)(* to_csv(path), g.show(path) *)
  | Display.                                (* print, cell output, plt.show() *)

(** What the world answers. *)
Record World : Type := mkWorld {
  glob_result : string -> list string;         (* paths matching a pattern *)
  file_xml : string -> option Element;         (* parse of a path, if it parses *)
  file_lines : string -> option (list string); (* read().split('\n'), if the file opens *)
  http_xml : string -> option Element;         (* body of a URL, if it parses *)
  subprocess_result : string -> Outcome nat    (* exit status, or an exception *)
}.

(** A computation of a run: it reads and extends the record of external
    calls, reads and writes the script's globals [G], and ends normally or
    with an uncaught exception.  What was done before an exception stays
    done. *)
Definition M (G A : Type) : Type :=
  list Effect * G -> (list Effect * G) * Outcome A.

Definition ret {G A} (a : A) : M G A := fun s => (s, Ok a).

Definition bind {G A B} (m : M G A) (k : A -> M G B) : M G B :=
  fun s =>
    match m s with
    | (s', Ok a) => k a s'
    | (s', Raise e) => (s', Raise e)
    end.

Definition raise {G A} (e : Exc) : M G A := fun s => (s, Raise e).

Definition lift {G A} (o : Outcome A) : M G A := fun s => (s, o).

Definition emit {G} (e : Effect) : M G unit :=
  fun s => ((fst s ++ [e], snd s), Ok tt).

Definition modify {G} (f : G -> G) : M G unit :=
  fun s => ((fst s, f (snd s)), Ok tt).

(** [try: m  except <classes>: handler]. *)
Definition try_except {G A} (m : M G A) (catches : Exc -> bool)
    (handler : M G A) : M G A :=
  fun s =>
    match m s with
    | (s', Ok a) => (s', Ok a)
    | (s', Raise e) => if catches e then handler s' else (s', Raise e)
    end.

Definition only_AttributeError (e : Exc) : bool :=
  match e with AttributeError => true | _ => false end.
Definition bare_except (e : Exc) : bool := true.

(** [for x in xs: body]. *)
Fixpoint for_each {G X} (xs : list X) (body : X -> M G unit) : M G unit :=
  match xs with
  | [] => ret tt
  | x :: xs' => bind (body x) (fun _ => for_each xs' body)
  end.

(** [etree.parse(path, parser)]. *)
Definition parse {G} (w : World) (path : string) : M G Element :=
  bind (emit (ParseXml path)) (fun _ =>
    match file_xml w path with
    | Some doc => ret doc
    | None => raise ParseError
    end).

(** [glob.glob(pattern)]. *)
Definition glob {G} (w : World) (pattern : string) : M G (list string) :=
  bind (emit (GlobFiles pattern)) (fun _ => ret (glob_result w pattern)).

(** [subprocess.call(command, shell=True)]. *)
Definition subprocess_call {G} (w : World) (command : string) : M G nat :=
  bind (emit (Subprocess command)) (fun _ => lift (subprocess_result w command)).

(** [open(path, 'r')] followed by [read().split('\n')]. *)
Definition read_lines {G} (w : World) (path : string) : M G (list string) :=
  bind (emit (OpenRead path)) (fun _ =>
    match file_lines w path with
    | Some lines => ret lines
    | None => raise OtherError
    end).

(** A computation on one part of a script's globals. *)
Definition on_fst {G1 G2 A} (m : M G1 A) : M (G1 * G2) A :=
  fun s =>
    let '(s', o) := m (fst s, fst (snd s)) in
    ((fst s', (snd s', snd (snd s))), o).
Definition on_snd {G1 G2 A} (m : M G2 A) : M (G1 * G2) A :=
  fun s =>
    let '(s', o) := m (fst s, snd (snd s)) in
    ((fst s', (fst (snd s), snd s')), o).

Definition trace_of {G A} (r : (list Effect * G) * Outcome A) : list Effect :=
  fst (fst r).
Definition globals_of {G A} (r : (list Effect * G) * Outcome A) : G :=
  snd (fst r).
Definition outcome_of {G A} (r : (list Effect * G) * Outcome A) : Outcome A :=
  snd r.

(** A computation over a list-valued global that only appends: from any
    start it adds to the record of calls and to the global what it adds
    from the empty start, and ends the same way. *)
Definition appends_only {X A} (m : M (list X) A) : Prop :=
  forall tr g,
    m (tr, g)
    = ((tr ++ trace_of (m ([], [])), g ++ globals_of (m ([], []))),
       outcome_of (m ([], []))).

(** [full] lists the external calls of [m] in order: a run of [m] makes an
    initial part of them, and all of them when it ends normally. *)
Definition traces_within {G A} (m : M G A) (full : list Effect) : Prop :=
  forall s, exists done,
    trace_of (m s) = fst s ++ done
    /\ done `prefix_of` full
    /\ (is_ok (outcome_of (m s)) = true -> done = full).

(** [m] makes exactly the calls [calls], however it ends. *)
Definition emits_exactly {G A} (m : M G A) (calls : list Effect) : Prop :=
  forall s, trace_of (m s) = fst s ++ calls.

End Run.

Declare Scope run_scope.
Delimit Scope run_scope with run.
Notation "x <- m ;; k" := (Run.bind m (fun x => k))
  (at level 100, m at next level, right associativity) : run_scope.
Notation "m ;;; k" := (Run.bind m (fun _ => k))
  (at level 100, right associativity) : run_scope.

Local Open Scope run_scope.

(* ===================================================================== *)
(** * ep_xml.py, cell In[14]: sentences from <w> and <pc> tags           *)
(* ===================================================================== *)

Module EpXml.
Import Py Xml.

(** A sentence under construction holds [tag.text] values, [None]
    included. *)
Abbreviation Sentence := (list (option string)).

(** Line 255: ['unit' in tag.attrib and tag.get('unit') == 'sentence']. *)
Definition ends_sentence (tag : Element) : bool :=
  has_attrib tag "unit" && py_eq_str (get tag "unit" PNone) "sentence".

(** Lines 256-258: the marker's text is appended unless it is [None]. *)
Definition append_marker (new_sentence : Sentence) (tag : Element) : Sentence :=
  match text tag with
  | Some t => new_sentence ++ [Some t]
  | None => new_sentence
  end.

(** One pass of the loop body (lines 255-265) over the pair
    [(all_sentences, new_sentence)]. *)
Definition sentence_step (st : list Sentence * Sentence) (tag : Element)
  : list Sentence * Sentence :=
  let '(all_sentences, new_sentence) := st in
  if ends_sentence tag then
    (all_sentences ++ [append_marker new_sentence tag], [])
  else
    (all_sentences, new_sentence ++ [text tag]).

(** Lines 247-265: both lists start empty and the loop visits the tags in
    order. *)
Definition sentence_loop (tags : list Element) : list Sentence * Sentence :=
  fold_left sentence_step tags ([], []).

Definition all_sentences (tags : list Element) : list Sentence :=
  fst (sentence_loop tags).
Definition new_sentence (tags : list Element) : Sentence :=
  snd (sentence_loop tags).

(** The cell: the XPath query, the slice [w_and_pc[:500]], the loop, and
    [print(all_sentences)]. *)
Definition In14 (paradiselost : Element) : list Sentence :=
  all_sentences (firstn 500 (xpath_w_or_pc paradiselost)).


(** The segmentation as the tutorial text describes it, for any test
    [is_end] of what ends a sentence: texts are collected into the current
    sentence; at an end marker its text, if any, joins the sentence, the
    sentence is complete and a new empty one begins.  What is collected
    after the last marker belongs to no complete sentence. *)
Fixpoint segment (is_end : Element -> bool) (current : Sentence)
    (tags : list Element) : list Sentence :=
  match tags with
  | [] => []
  | tag :: rest =>
      if is_end tag then
        append_marker current tag :: segment is_end [] rest
      else segment is_end (current ++ [text tag]) rest
  end.

(** "A <pc> element whose unit attribute equals 'sentence'". *)
Definition is_sentence_pc (tag : Element) : bool :=
  matches_tei "pc" tag && bool_decide (attrib tag !! "unit" = Some "sentence").

(** The segmentation of a whole sequence of <w> and <pc> elements with
    that marker. *)
Definition spec_sentences (w_and_pc : list Element) : list Sentence :=
  segment is_sentence_pc [] w_and_pc.

End EpXml.

(* ===================================================================== *)
(** * word2vec.py, cells In[2] and In[3]: get_sentences                  *)
(* ===================================================================== *)

Module Word2Vec.
Import Py Xml Run.

(** The module-level list [all_sentences] (line 55) is the one global the
    function touches. *)
Abbreviation Globals := (list (list string)).

(** Line 44: [previous != None and previous.get('unit', previous) == 'sentence']. *)
Definition boundary_before (previous : option Element) : bool :=
  match previous with
  | Some p => py_eq_str (get p "unit" (PElem p)) "sentence"
  | None => false
  end.

(** The same test with [previous.get('unit')], whose default is [None]. *)
Definition boundary_before_plain (previous : option Element) : bool :=
  match previous with
  | Some p => py_eq_str (get p "unit" PNone) "sentence"
  | None => false
  end.

Section WithLower.
Variable lower : string -> string.

(** Line 47: [word.get('lemma', word.text).lower()]. *)
Definition token_of (word : Element) : Outcome string :=
  lower_method lower (get_text word "lemma" (text word)).

(** Lines 42-47.  [new_sentence] is the function's local; the loop hands
    back its last value, which the function then forgets. *)
Fixpoint get_sentences_loop (words : list (option Element * Element))
    (new_sentence : list string) : M Globals (list string) :=
  match words with
  | [] => ret new_sentence
  | (previous, word) :: rest =>
      new_sentence <-
        (if boundary_before previous then
           modify (fun all_sentences => all_sentences ++ [new_sentence]) ;;;
           ret []
         else ret new_sentence) ;;
      token <- lift (token_of word) ;;
      get_sentences_loop rest (new_sentence ++ [token])
  end.

(** Lines 36-47. *)
Definition get_sentences (w : World) (filename : string) : M Globals unit :=
  xml <- parse w filename ;;
  _ <- get_sentences_loop (iter_w_prev xml) [] ;;
  ret tt.

(** Cell In[3], lines 54-57; [all_sentences = []] is the initial global. *)
Definition In3 (w : World) : M Globals unit :=
  files <- glob w "1666_texts_full/*.xml" ;;
  for_each files (get_sentences w).

Definition run_In3 (w : World) : (list Effect * Globals) * Outcome unit :=
  In3 w ([], []).

End WithLower.

(** The tokens of a word list, one per <w>, when none of them raises. *)
Fixpoint tokens_of (lower : string -> string)
    (words : list (option Element * Element)) : Outcome (list string) :=
  match words with
  | [] => Ok []
  | (_, word) :: rest =>
      match token_of lower word, tokens_of lower rest with
      | Ok tok, Ok toks => Ok (tok :: toks)
      | Raise e, _ => Raise e
      | _, Raise e => Raise e
      end
  end.

(** The words at which the loop closes a sentence. *)
Definition closing_words (words : list (option Element * Element))
  : list (option Element * Element) :=
  filter (fun pw => boundary_before (fst pw) = true) words.

End Word2Vec.

(* ===================================================================== *)
(** * tf_idf.py and similarity.py: tokens and counts                     *)
(* ===================================================================== *)

Module Tokens.
Import Py Xml Run.

(** [all_tokenized], the one list the loop appends to. *)
Abbreviation Globals := (list (list string)).

(** [word.text != None]. *)
Definition is_not_None {A} (v : option A) : bool :=
  match v with Some _ => true | None => false end.

Section WithLower.
Variable lower : string -> string.

(** tf_idf.py line 78 ([attr = 'reg']) and similarity.py line 69
    ([attr = 'lemma']):
    [[word.get(attr, word.text).lower() for word in word_tags if word.text != None]]. *)
Fixpoint words_of (attr : string) (word_tags : list Element)
  : Outcome (list string) :=
  match word_tags with
  | [] => Ok []
  | word :: rest =>
      if is_not_None (text word) then
        match lower_method lower (get_text word attr (text word)) with
        | Raise e => Raise e
        | Ok tok =>
            match words_of attr rest with
            | Ok toks => Ok (tok :: toks)
            | Raise e => Raise e
            end
        end
      else words_of attr rest
  end.

(** The loop of tf_idf.py lines 66-80 and similarity.py lines 57-71. *)
Definition tokenize_file (attr : string) (w : World) (f : string)
  : M Globals unit :=
  xml <- parse w f ;;
  let word_tags := findall_any_ns "w" xml in
  words <- lift (words_of attr word_tags) ;;
  modify (fun all_tokenized => all_tokenized ++ [words]).

Definition tokenize_loop (attr : string) (w : World) (files : list string)
  : M Globals unit :=
  for_each files (tokenize_file attr w).

End WithLower.

(** In the words of the comments at lines 74-77 of tf_idf.py: a tag
    without a word gives nothing; otherwise the regularized (or lemmatized)
    form if there is one, else the word itself, in lowercase. *)
Definition token_if_text (lower : string -> string) (attr : string)
    (word : Element) : option string :=
  match text word with
  | Some t => Some (lower (default t (attrib word !! attr)))
  | None => None
  end.

(** [collections.Counter(a)] on a list: the library counts with
    [mapping[elem] = mapping.get(elem, 0) + 1] for each element in turn. *)
Definition count_element (mapping : gmap string nat) (elem : string)
  : gmap string nat :=
  <[elem := default 0 (mapping !! elem) + 1]> mapping.

Definition Counter (a : list string) : gmap string nat :=
  fold_left count_element a ∅.

(** [all_counted = [Counter(a) for a in all_tokenized]]. *)
Definition all_counted (all_tokenized : list (list string))
  : list (gmap string nat) :=
  map Counter all_tokenized.

(** [pd.DataFrame(records)] for a list of dicts: one row per record, one
    column per key that occurs in some record; a cell is NaN ([None] here)
    where the row's record lacks the column's key.  Rows are addressed by
    position; the order of the columns is not modelled. *)
Definition columns (records : list (gmap string nat)) : gset string :=
  ⋃ (dom <$> records).

Definition frame_cell (records : list (gmap string nat)) (i : nat)
    (term : string) : option (option nat) :=
  match records !! i with
  | Some row =>
      if bool_decide (term ∈ columns records) then Some (row !! term) else None
  | None => None
  end.

(** [.fillna(v)]: NaN cells become [v].  (pandas stores the filled table as
    floats; the counts are small integers, exactly representable.) *)
Definition fillna (v : nat) (cell : option nat) : nat := default v cell.

(** [df = pd.DataFrame(all_counted, index=...).fillna(0)], cell at row [i]
    and column [term]; [None] when there is no such row or column. *)
Definition df (all_tokenized : list (list string)) (i : nat) (term : string)
  : option nat :=
  fillna 0 <$> frame_cell (all_counted all_tokenized) i term.

End Tokens.

(* ===================================================================== *)
(** * metadata.py and similarity.py: the metadata loops                  *)
(* ===================================================================== *)

Module Metadata.
Import Py Xml Run.

(** [s.split(sep)] for a one-character separator: never empty. *)
Fixpoint split (sep : ascii) (s : string) : list string :=
  match s with
  | EmptyString => [EmptyString]
  | String c s' =>
      if Ascii.eqb c sep then EmptyString :: split sep s'
      else match split sep s' with
           | [] => [String c EmptyString]
           | piece :: pieces => String c piece :: pieces
           end
  end.

(** [f.split("/")[-1].split("_")[0]]: the TCP ID in a header file name. *)
Definition tcp_id_of (f : string) : string :=
  hd "" (split "_" (List.last (split "/" f) "")).

(** [f.split('/')[-1].split('.')[0]] (similarity.py line 38). *)
Definition filekey_of (f : string) : string :=
  hd "" (split "." (List.last (split "/" f) "")).

(** A row [{'title': title, 'author': author, 'date': date}]; [None] is
    Python's [None]. *)
Record Row : Type := mkRow {
  title : option string;
  author : option string;
  date : option string
}.

(** An edge [(tcp_id, printer, {'date': date})]. *)
Record Edge : Type := mkEdge {
  edge_text : string;
  edge_printer : string;
  edge_date : option string
}.

(** The lists the loops append to. *)
Record Globals : Type := mkGlobals {
  all_data : list Row;
  index : list string;
  edgelist : list Edge
}.

Definition no_globals : Globals := mkGlobals [] [] [].

Definition append_row (r : Row) (g : Globals) : Globals :=
  mkGlobals (all_data g ++ [r]) (index g) (edgelist g).
Definition append_index (i : string) (g : Globals) : Globals :=
  mkGlobals (all_data g) (index g ++ [i]) (edgelist g).
Definition append_edge (e : Edge) (g : Globals) : Globals :=
  mkGlobals (all_data g) (index g) (edgelist g ++ [e]).

(** [metadata.find(".//tei:sourceDesc//tei:title", namespaces=nsmap).text]
    (metadata.py line 110, similarity.py line 155): not guarded. *)
Definition get_title (metadata : Element) : Outcome (option string) :=
  text_of_found (find_desc_desc "sourceDesc" "title" metadata).

(** Lines 113-116 of metadata.py, 158-161 of similarity.py. *)
Definition get_author {G} (metadata : Element) : M G (option string) :=
  try_except
    (lift (text_of_found (find_desc_desc "sourceDesc" "author" metadata)))
    only_AttributeError
    (ret None).

(** Lines 119-122 and 198-201 of metadata.py, 164-167 of similarity.py. *)
Definition get_date {G} (metadata : Element) : M G (option string) :=
  try_except
    (lift (get_of_found (find_desc_desc "sourceDesc" "date" metadata) "when"))
    only_AttributeError
    (ret None).

(** metadata.py lines 108-128: the body of the loop of cell In[4]. *)
Definition In4_body (w : World) (f : string) : M Globals unit :=
  let tcp_id := tcp_id_of f in
  metadata <- parse w f ;;
  title <- lift (get_title metadata) ;;
  author <- get_author metadata ;;
  date <- get_date metadata ;;
  modify (append_row (mkRow title author date)) ;;;
  modify (append_index tcp_id).

(** metadata.py lines 105-128. *)
Definition In4_loop (w : World) (files : list string) : M Globals unit :=
  for_each files (In4_body w).

(** similarity.py lines 151-173: the same body behind
    [if tcp_id in filekeys]. *)
Definition In59_body (w : World) (filekeys : list string) (f : string)
  : M Globals unit :=
  let tcp_id := tcp_id_of f in
  if bool_decide (tcp_id ∈ filekeys) then
    metadata <- parse w f ;;
    title <- lift (get_title metadata) ;;
    author <- get_author metadata ;;
    date <- get_date metadata ;;
    modify (append_row (mkRow title author date)) ;;;
    modify (append_index tcp_id)
  else ret tt.

Definition In59_loop (w : World) (filekeys metadata_files : list string)
  : M Globals unit :=
  for_each metadata_files (In59_body w filekeys).

Section WithNames.
(** [standardize_name] on a [str] (metadata.py lines 165-173): replace,
    strip and regular-expression calls driven by name_abbrev.json. *)
Variable standardize_str : string -> string.

(** [standardize_name(p.text)]: [name.replace] on [None] raises. *)
Definition standardize_name (name : option string) : Outcome string :=
  match name with
  | Some s => Ok (standardize_str s)
  | None => Raise AttributeError
  end.

(** metadata.py lines 191-205: the body of the loop of cell In[22]. *)
Definition In22_body (w : World) (f : string) : M Globals unit :=
  let tcp_id := tcp_id_of f in
  metadata <- parse w f ;;
  let printers := findall_printers metadata in
  date <- get_date metadata ;;
  for_each printers (fun p =>
    name <- lift (standardize_name (text p)) ;;
    modify (append_edge (mkEdge tcp_id name date))).

Definition In22_loop (w : World) (files : list string) : M Globals unit :=
  for_each files (In22_body w).

End WithNames.

(** The row the loop body builds for a parsed header that has a title. *)
Definition row_of (metadata : Element) : Row :=
  mkRow
    (match find_desc_desc "sourceDesc" "title" metadata with
     | Some e => text e | None => None end)
    (match find_desc_desc "sourceDesc" "author" metadata with
     | Some e => text e | None => None end)
    (match find_desc_desc "sourceDesc" "date" metadata with
     | Some e => get_text e "when" None | None => None end).

Definition has_title (metadata : Element) : bool :=
  Tokens.is_not_None (find_desc_desc "sourceDesc" "title" metadata).

(** The rows of the files of a list that parse. *)
Definition rows_of (w : World) (files : list string) : list Row :=
  omap (fun f => row_of <$> file_xml w f) files.

(** The globals after rows for [files] have been appended. *)
Definition with_rows (w : World) (files : list string) (g : Globals) : Globals :=
  mkGlobals (all_data g ++ rows_of w files)
            (index g ++ map tcp_id_of files)
            (edgelist g).

(** A file that parses and has a title element. *)
Definition titled (w : World) (f : string) : Prop :=
  exists metadata, file_xml w f = Some metadata /\ has_title metadata = true.

(** The files the loop of similarity.py admits. *)
Definition admitted (filekeys files : list string) : list string :=
  List.filter (fun f => bool_decide (tcp_id_of f ∈ filekeys)) files.

End Metadata.

(* ===================================================================== *)
(** * The scripts as wholes                                              *)
(* ===================================================================== *)

(** Each script is laid out cell by cell.  The loops above appear in full;
    a cell that only computes with library tables (pandas, scikit-learn,
    networkx, gensim) is left out, and a notebook cell that prints or shows
    a result is one [Display] (in get_texts.py, each [print]).  An exception inside a cell that is left out would end
    the real run there, so the external calls of a real run are an initial
    part of the ones recorded here. *)

Module Scripts.
Import Py Xml Run.

(** The listed cells each show output. *)
Definition show_cells {G} (cells : list nat) : M G unit :=
  for_each cells (fun _ => emit Display).

(** ** 1666_texts/get_texts.py *)

Definition location_of (i : string) : string :=
  let small_i := substring 0 3 i in
  "/home/data/phase1texts/texts/" +:+ small_i +:+ "/" +:+ i +:+ ".xml".

Definition command_of (i : string) : string :=
  "cp " +:+ location_of i +:+ " .".

(** Lines 16-19: [try: subprocess.call(command, shell=True)  except: pass]. *)
Definition try_cp (w : World) (command : string) : M unit unit :=
  try_except
    (_ <- subprocess_call w command ;; ret tt)
    bare_except
    (ret tt).

Definition get_texts_py (w : World) : M unit unit :=
  list_of_ids <- read_lines w "texts.csv" ;;          (* lines 5-6 *)
  emit Display ;;;                                    (* line 8 *)
  for_each (removelast list_of_ids) (fun i =>         (* line 10 *)
    emit Display ;;;                                  (* lines 11-12 *)
    emit Display ;;;                                  (* lines 13-14 *)
    try_cp w (command_of i)).                         (* lines 15-19 *)

(** ** ep_xml.py *)

Definition ep_xml_py (w : World) : M unit unit :=
  paradiselost <- parse w "A50919.xml" ;;             (* In[2] *)
  show_cells (seq 3 16) ;;;                           (* In[3]-In[18]; In[14] prints [EpXml.In14 paradiselost] *)
  emit (WriteFile Csv "pl_noun_counts_by_book.csv").  (* In[19] *)

(** metadata.py lines 46-49: [base_url] with [tcp_id = "A53049"]. *)
Definition base_url : string :=
  "https://raw.githubusercontent.com/earlyprint/epmetadata/master/header/A53049_header.xml".

Section WithLibrary.
Variable lower : string -> string.
Variable standardize_str : string -> string.

(** ** tf_idf.py *)

Definition tf_idf_py (w : World) : M Tokens.Globals unit :=
  files <- glob w "1666_texts/*.xml" ;;               (* In[2] *)
  Tokens.tokenize_loop lower "reg" w files ;;;
  emit Display.                                       (* In[4] *)

(** ** word2vec.py *)

Definition word2vec_py (w : World) : M Word2Vec.Globals unit :=
  Word2Vec.In3 lower w ;;;                            (* In[2], In[3] *)
  show_cells [5; 6; 7; 8; 10; 11; 12].

(** ** similarity.py *)

Definition similarity_py (w : World)
  : M (Tokens.Globals * Metadata.Globals) unit :=
  filenames <- glob w "1666_texts/*.xml" ;;           (* In[2] *)
  let filekeys := map Metadata.filekey_of filenames in
  emit Display ;;;
  on_fst (Tokens.tokenize_loop lower "lemma" w filenames) ;;;  (* In[3] *)
  show_cells [3; 55; 56; 57; 58] ;;;                  (* tables and top5_cosine *)
  metadata_files <- glob w "../../epmetadata/header/*.xml" ;;  (* In[59] *)
  on_snd (Metadata.In59_loop w filekeys metadata_files) ;;;
  show_cells [59; 60; 62; 63; 64; 65].                (* tables and plots *)

(** ** metadata.py *)


(** Cell In[3]: five prints, each with an unguarded lookup. *)
Definition In3_prints (metadata : Element) : M Metadata.Globals unit :=
  _ <- lift (text_of_found (find_desc_desc "sourceDesc" "title" metadata)) ;;
  emit Display ;;;
  _ <- lift (text_of_found (find_desc_desc "sourceDesc" "author" metadata)) ;;
  _ <- lift (text_of_found (find_desc_desc "sourceDesc" "date" metadata)) ;;
  _ <- lift (get_of_found (find_desc_desc "sourceDesc" "date" metadata) "when") ;;
  _ <- lift (text_of_found (head (findall_printers metadata))) ;;
  ret tt.

Definition metadata_py (w : World) : M Metadata.Globals unit :=
  emit (HttpGet base_url) ;;;                         (* In[2] *)
  emit Display ;;;
  metadata <- lift (match http_xml w base_url with    (* In[3] *)
                    | Some doc => Ok doc
                    | None => Raise ParseError
                    end) ;;
  In3_prints metadata ;;;
  files <- glob w "../../epmetadata/header/*.xml" ;;  (* In[4] *)
  Metadata.In4_loop w files ;;;
  emit Display ;;;
  _ <- read_lines w "name_abbrev.json" ;;             (* In[21] *)
  Metadata.In22_loop standardize_str w files ;;;      (* In[22] *)
  emit Display ;;;
  show_cells [23; 25] ;;;
  emit (WriteFile Html "subgraph.html") ;;;           (* In[27] *)
  emit Display.

End WithLibrary.

(** ** The external calls of each script, in program order *)

Definition shown (cells : list nat) : list Effect :=
  map (fun _ => Display) cells.

Definition get_texts_calls (w : World) : list Effect :=
  OpenRead "texts.csv" ::
  match file_lines w "texts.csv" with
  | Some list_of_ids =>
      Display ::
      flat_map (fun i => [Display; Display; Subprocess (command_of i)])
               (removelast list_of_ids)
  | None => []
  end.

Definition ep_xml_calls : list Effect :=
  ParseXml "A50919.xml" :: shown (seq 3 16)
    ++ [WriteFile Csv "pl_noun_counts_by_book.csv"].

Definition tf_idf_calls (w : World) : list Effect :=
  GlobFiles "1666_texts/*.xml"
    :: map ParseXml (glob_result w "1666_texts/*.xml") ++ [Display].

Definition word2vec_calls (w : World) : list Effect :=
  GlobFiles "1666_texts_full/*.xml"
    :: map ParseXml (glob_result w "1666_texts_full/*.xml")
    ++ shown [5; 6; 7; 8; 10; 11; 12].

Definition similarity_calls (w : World) : list Effect :=
  let filenames := glob_result w "1666_texts/*.xml" in
  let filekeys := map Metadata.filekey_of filenames in
  let metadata_files := glob_result w "../../epmetadata/header/*.xml" in
  GlobFiles "1666_texts/*.xml" :: Display
    :: map ParseXml filenames
    ++ shown [3; 55; 56; 57; 58]
    ++ GlobFiles "../../epmetadata/header/*.xml"
    :: map ParseXml (Metadata.admitted filekeys metadata_files)
    ++ shown [59; 60; 62; 63; 64; 65].

Definition metadata_calls (w : World) : list Effect :=
  let files := glob_result w "../../epmetadata/header/*.xml" in
  HttpGet base_url :: Display :: Display
    :: GlobFiles "../../epmetadata/header/*.xml"
    :: map ParseXml files
    ++ Display :: OpenRead "name_abbrev.json"
    :: map ParseXml files
    ++ Display :: shown [23; 25]
    ++ [WriteFile Html "subgraph.html"; Display].

(** ** The try/except blocks of the repository *)

Inductive Script : Type :=
  | GetTextsPy | EpXmlPy | TfIdfPy | Word2VecPy | SimilarityPy | MetadataPy.

(** What stands between [try:] and [except]. *)
Inductive Guarded : Type :=
  | FindText (path : string)            (* metadata.find(path).text *)
  | FindGet (path attr : string)        (* metadata.find(path).get(attr) *)
  | SubprocessCall.                     (* subprocess.call(command, shell=True) *)

Inductive Catch : Type :=
  | ExceptAttributeError                (* except AttributeError: *)
  | ExceptAll.                          (* except: *)

Inductive Handler : Type :=
  | AssignNone (var : string)           (* var = None *)
  | Pass.                               (* pass *)

Record TryBlock : Type := mkTry {
  in_script : Script;
  at_line : nat;
  guarded : Guarded;
  catch : Catch;
  handler : Handler
}.

Definition author_path : string := ".//tei:sourceDesc//tei:author".
Definition date_path : string := ".//tei:sourceDesc//tei:date".

Definition try_blocks : list TryBlock :=
  [ mkTry GetTextsPy 16 SubprocessCall ExceptAll Pass;
    mkTry MetadataPy 113 (FindText author_path) ExceptAttributeError (AssignNone "author");
    mkTry MetadataPy 119 (FindGet date_path "when") ExceptAttributeError (AssignNone "date");
    mkTry MetadataPy 198 (FindGet date_path "when") ExceptAttributeError (AssignNone "date");
    mkTry SimilarityPy 158 (FindText author_path) ExceptAttributeError (AssignNone "author");
    mkTry SimilarityPy 164 (FindGet date_path "when") ExceptAttributeError (AssignNone "date") ].

Definition guards_xml_lookup (b : TryBlock) : bool :=
  match guarded b with
  | FindText _ | FindGet _ _ => true
  | SubprocessCall => false
  end.

Definition substitutes_None (b : TryBlock) : bool :=
  match handler b with
  | AssignNone _ => true
  | Pass => false
  end.

(** ** Kinds of external call *)

(** What the prose description allows: reading files and writing CSV or
    PNG.  Showing output in the notebook is counted with it. *)
Definition read_or_csv_png (e : Effect) : bool :=
  match e with
  | GlobFiles _ | OpenRead _ | ParseXml _ => true
  | WriteFile Csv _ | WriteFile Png _ => true
  | Display => true
  | HttpGet _ | Subprocess _ | WriteFile Html _ => false
  end.

(** Calls that only read files or show output. *)
Definition reads_or_shows (e : Effect) : bool :=
  match e with
  | GlobFiles _ | OpenRead _ | ParseXml _ | Display => true
  | HttpGet _ | Subprocess _ | WriteFile _ _ => false
  end.

Definition is_parse_of (f : string) (e : Effect) : bool :=
  match e with
  | ParseXml f' => String.eqb f' f
  | _ => false
  end.

(** How often a run parsed file [f]. *)
Definition parses (f : string) (trace : list Effect) : nat :=
  length (List.filter (is_parse_of f) trace).

End Scripts.

(* ===================================================================== *)
(** * Sample documents and worlds                                        *)
(* ===================================================================== *)

Module Examples.
Import Py Xml Run.

Definition w_tag (attrs : gmap string string) (t : option string) : Element :=
  Elem (tei "w") attrs t [].
Definition pc_tag (attrs : gmap string string) (t : option string) : Element :=
  Elem (tei "pc") attrs t [].
Definition elem (name : string) (attrs : gmap string string)
    (t : option string) (cs : list Element) : Element :=
  Elem (tei name) attrs t cs.

(** [<p><w>arms</w><pc unit="sentence">.</pc><w>and</w></p>] *)
Definition arms_and : Element :=
  elem "p" ∅ None
    [ w_tag ∅ (Some "arms");
      pc_tag {[ "unit" := "sentence" ]} (Some ".");
      w_tag ∅ (Some "and") ].


(** [<l><w lemma="Arm">Arms</w><pc unit="sentence">.</pc><w>And</w>
       <pc unit="sentence"/><w>the</w><w>man</w></l>] *)
Definition arms_and_the_man : list Element :=
  [ w_tag {[ "lemma" := "Arm" ]} (Some "Arms");
    pc_tag {[ "unit" := "sentence" ]} (Some ".");
    w_tag ∅ (Some "And");
    pc_tag {[ "unit" := "sentence" ]} None;
    w_tag ∅ (Some "the");
    w_tag ∅ (Some "man") ].

(** The same tags as the children of one <l>. *)
Definition arms_line : Element := elem "l" ∅ None arms_and_the_man.

(** A metadata header:
    [<TEI><teiHeader><sourceDesc><biblFull> fields </biblFull></sourceDesc></teiHeader></TEI>]. *)
Definition header (fields : list Element) : Element :=
  elem "TEI" ∅ None
    [ elem "teiHeader" ∅ None
        [ elem "sourceDesc" ∅ None [ elem "biblFull" ∅ None fields ] ] ].

(** A header with title, author and dated publication. *)
Definition full_header : Element :=
  header [ elem "title" ∅ (Some "Annus mirabilis") [];
           elem "author" ∅ (Some "Dryden, John, 1631-1700.") [];
           elem "date" {[ "when" := "1667" ]} (Some "1667.") [] ].

(** A header with a title only, and one without a title. *)
Definition title_only_header : Element :=
  header [ elem "title" ∅ (Some "A proclamation") [] ].
Definition untitled_header : Element :=
  header [ elem "author" ∅ (Some "Anon.") [];
           elem "date" {[ "when" := "1660" ]} (Some "1660") [] ].

(** A world that holds the given parsed files, answers every glob with
    their paths, and has no text files and no network. *)
Definition world_of (files : list (string * Element)) : World :=
  mkWorld
    (fun _ => map fst files)
    (fun path => snd <$> List.find (fun pf => String.eqb (fst pf) path) files)
    (fun _ => None)
    (fun _ => None)
    (fun _ => Ok 0).

Definition header_1 : string := "../../epmetadata/header/A00001_header.xml".
Definition header_2 : string := "../../epmetadata/header/A00002_header.xml".
Definition header_3 : string := "../../epmetadata/header/A00003_header.xml".

(** Three header files: complete, title only, no title. *)
Definition header_world : World :=
  world_of [ (header_1, full_header);
             (header_2, title_only_header);
             (header_3, untitled_header) ].

(** A header that also names a printer. *)
Definition printer_header : Element :=
  header [ elem "title" ∅ (Some "Observations upon experimental philosophy") [];
           elem "author" ∅ (Some "Newcastle, Margaret Cavendish") [];
           elem "date" {[ "when" := "1666" ]} (Some "1666.") [];
           elem "person" {[ "type" := "printer" ]} None
             [ elem "persName" ∅ (Some "A. Maxwell") [] ] ].

(** A world in which metadata.py runs to its end: the URL answers with a
    header, two header files are on disk and name_abbrev.json opens. *)
Definition metadata_world : World :=
  mkWorld
    (fun _ => [header_1; header_2])
    (file_xml (world_of [ (header_1, printer_header); (header_2, title_only_header) ]))
    (fun _ => Some [])
    (fun _ => Some printer_header)
    (fun _ => Ok 0).

(** A world in which every subprocess call raises. *)
Definition failing_shell : World :=
  mkWorld
    (fun _ => [])
    (fun _ => None)
    (fun _ => Some ["A53049"; ""])
    (fun _ => None)
    (fun _ => Raise OtherError).

(** A world for get_texts.py: texts.csv holds two IDs and a final newline. *)
Definition texts_world : World :=
  mkWorld
    (fun _ => [])
    (fun _ => None)
    (fun _ => Some ["A53049"; "A29017"; ""])
    (fun _ => None)
    (fun _ => Ok 0).

End Examples.

(* ===================================================================== *)
(** * File names and lines                                               *)
(* ===================================================================== *)

Module Paths.
Import Py.

(** [c in s] for a character [c]. *)
Fixpoint has_char (c : ascii) (s : string) : bool :=
  match s with
  | EmptyString => false
  | String c' s' => Ascii.eqb c' c || has_char c s'
  end.

(** tf_idf.py line 96: the row label [f.split("/")[1].split(".")[0]].
    Indexing [[1]] past the end raises IndexError ([OtherError] here);
    [[0]] cannot fail, a split is never empty. *)
Definition label_of (f : string) : Outcome string :=
  match Metadata.split "/" f with
  | _ :: second :: _ => Ok (hd "" (Metadata.split "." second))
  | _ => Raise OtherError
  end.

(** What [read()] makes of the characters of a file opened in text mode
    (get_texts.py line 5, [open('texts.csv', 'r')]): every line ending,
    "\r\n", "\r" or "\n", comes out as "\n". *)
Fixpoint universal_newlines (raw : string) : string :=
  match raw with
  | EmptyString => EmptyString
  | String c rest =>
      if Ascii.eqb c "013" then
        match rest with
        | String c' rest' =>
            if Ascii.eqb c' "010" then String "010" (universal_newlines rest')
            else String "010" (universal_newlines rest)
        | EmptyString => String "010" EmptyString
        end
      else String c (universal_newlines rest)
  end.

(** get_texts.py lines 5-6: [textlist.read().split('\n')] on a file with
    the characters [raw]. *)
Definition lines_of (raw : string) : list string :=
  Metadata.split "010" (universal_newlines raw).

(** A text file with one entry per line, every line ended by [eol]. *)
Fixpoint unlines_with (eol : string) (entries : list string) : string :=
  match entries with
  | [] => EmptyString
  | entry :: rest => entry +:+ eol +:+ unlines_with eol rest
  end.

(** The same with "\n" as line ending. *)
Fixpoint unlines (entries : list string) : string :=
  match entries with
  | [] => EmptyString
  | entry :: rest => entry +:+ String "010" (unlines rest)
  end.

(** An entry of such a file: it holds no line ending character. *)
Definition one_line (entry : string) : bool :=
  negb (has_char "010" entry) && negb (has_char "013" entry).

End Paths.

(* ===================================================================== *)
(** * The edges of one metadata file                                     *)
(* ===================================================================== *)

Module Edges.
Import Py Xml Run.

(** The edges metadata.py line 205 appends for the printers of one file:
    one per <persName> that has a text, in document order. *)
Definition edges_of (standardize_str : string -> string) (tcp_id : string)
    (date : option string) (printers : list Element) : list Metadata.Edge :=
  omap (fun p => (fun name => Metadata.mkEdge tcp_id (standardize_str name) date)
                   <$> text p)
       printers.

Definition add_edges (edges : list Metadata.Edge) (g : Metadata.Globals)
  : Metadata.Globals :=
  Metadata.mkGlobals (Metadata.all_data g) (Metadata.index g)
                     (Metadata.edgelist g ++ edges).

(** [p.text is not None]. *)
Definition has_text (p : Element) : bool := Tokens.is_not_None (text p).

End Edges.

(* ===================================================================== *)
(** * Words that give a token                                            *)
(* ===================================================================== *)

Module Words.
Import Py Xml.


(** Every <w> of a list of elements has a text. *)
Definition words_have_text (elements : list Element) : bool :=
  forallb (fun e => negb (matches_any_ns "w" e) || Tokens.is_not_None (text e))
          elements.

(** The tokens tf_idf.py ([attr = 'reg']) or similarity.py
    ([attr = 'lemma']) takes from a file: those of its <w> elements that
    have a text; none if the file does not parse. *)
Definition tokens_of_file (lower : string -> string) (attr : string)
    (w : Run.World) (f : string) : list string :=
  match Run.file_xml w f with
  | Some xml => omap (Tokens.token_if_text lower attr) (findall_any_ns "w" xml)
  | None => []
  end.

End Words.

(* ===================================================================== *)
(** * ep_xml.py: words, nouns, lines and books                           *)
(* ===================================================================== *)

Module EpXmlCells.
Import Py Xml.

(** [root.findall(".//tei:name", namespaces=nsmap)]. *)
Definition findall_tei (name : string) (root : Element) : list Element :=
  filter (fun e => matches_tei name e = true) (descendants root).

(** Lines 89 and 93. *)
Definition all_word_tags (paradiselost : Element) : list Element :=
  findall_tei "w" paradiselost.
Definition all_words (paradiselost : Element) : list (option string) :=
  map text (all_word_tags paradiselost).

(** [pos.startswith('n')]. *)
Definition startswith_n (pos : string) : bool :=
  match pos with
  | String c _ => Ascii.eqb c "n"
  | EmptyString => false
  end.

(** Lines 161 and 338:
    [[value(w) for w in tags if w.get('pos').startswith('n')]]; on a tag
    without [pos], [None.startswith] raises AttributeError. *)
Fixpoint nouns_of (value : Element -> option string) (tags : list Element)
  : Outcome (list (option string)) :=
  match tags with
  | [] => Ok []
  | w :: rest =>
      match attrib w !! "pos" with
      | None => Raise AttributeError
      | Some pos =>
          match nouns_of value rest with
          | Ok nouns => Ok (if startswith_n pos then value w :: nouns else nouns)
          | Raise e => Raise e
          end
      end
  end.

(** Line 161: [all_nouns]. *)
Definition all_nouns (paradiselost : Element) : Outcome (list (option string)) :=
  nouns_of text (all_word_tags paradiselost).

(** Line 338, for one book: the regularized nouns. *)
Definition regularized_nouns (book : Element) : Outcome (list (option string)) :=
  nouns_of (fun w => get_text w "reg" (text w)) (findall_tei "w" book).

(** A tag that is kept as a noun. *)
Definition is_noun (w : Element) : bool :=
  match attrib w !! "pos" with
  | Some pos => startswith_n pos
  | None => false
  end.

Definition has_pos (w : Element) : bool :=
  bool_decide (is_Some (attrib w !! "pos")).

(** Lines 186 and 190. *)
Definition all_line_tags (paradiselost : Element) : list Element :=
  findall_tei "l" paradiselost.
Definition words_by_line (paradiselost : Element) : list (list (option string)) :=
  map (fun l => map text (findall_tei "w" l)) (all_line_tags paradiselost).

(** Lines 318 and 321: [".//tei:div[@type='book']"]. *)
Definition all_books (paradiselost : Element) : list Element :=
  filter (fun e => matches_tei "div" e
                   && bool_decide (attrib e !! "type" = Some "book") = true)
         (descendants paradiselost).
Definition words_by_book (paradiselost : Element) : list (list (option string)) :=
  map (fun book => map text (findall_tei "w" book)) (all_books paradiselost).

End EpXmlCells.

(* ===================================================================== *)
(** * metadata.py: cleaning a printer's name                             *)
(* ===================================================================== *)

Module Names.
Import Py.

(** [name.replace(c, "")] for a one-character [c]. *)
Fixpoint remove_char (c : ascii) (s : string) : string :=
  match s with
  | EmptyString => EmptyString
  | String c' s' =>
      if Ascii.eqb c' c then remove_char c s' else String c' (remove_char c s')
  end.

Definition in_chars (chars : list ascii) (c : ascii) : bool :=
  existsb (Ascii.eqb c) chars.

(** [name.strip(chars)]: leading and trailing characters of the set go. *)
Fixpoint lstrip (chars : list ascii) (s : string) : string :=
  match s with
  | EmptyString => EmptyString
  | String c s' => if in_chars chars c then lstrip chars s' else s
  end.

Fixpoint rstrip (chars : list ascii) (s : string) : string :=
  match s with
  | EmptyString => EmptyString
  | String c s' =>
      match rstrip chars s' with
      | EmptyString => if in_chars chars c then EmptyString else String c EmptyString
      | kept => String c kept
      end
  end.

Definition strip (chars : list ascii) (s : string) : string :=
  rstrip chars (lstrip chars s).

Fixpoint starts_with (prefix s : string) : bool :=
  match prefix, s with
  | EmptyString, _ => true
  | String p prefix', String c s' => Ascii.eqb p c && starts_with prefix' s'
  | String _ _, EmptyString => false
  end.

(** [name.replace(old, new)] for a non-empty [old]: occurrences are
    replaced from the left and do not overlap.  [skip] counts the
    characters of a matched occurrence still to be passed over. *)
Fixpoint replace_from (skip : nat) (old new s : string) : string :=
  match s with
  | EmptyString => EmptyString
  | String c s' =>
      match skip with
      | S k => replace_from k old new s'
      | O =>
          if starts_with old s then
            new +:+ replace_from (String.length old - 1) old new s'
          else String c (replace_from 0 old new s')
      end
  end.

Definition replace (old new s : string) : string := replace_from 0 old new s.

(** metadata.py lines 166-168, the name before the abbreviations are
    expanded. *)
Definition clean_name (name : string) : string :=
  let name := remove_char "]" (remove_char "[" name) in
  let name := strip ["," ; "'"]%char name in
  replace "Iohn" "John" name.

(** Lines 165-173 on a [str]; [expand] is the loop of lines 171-172, which
    applies the regular expressions built from name_abbrev.json. *)
Definition standardize_str (expand : string -> string) (name : string) : string :=
  expand (clean_name name).

(** [old in s]. *)
Fixpoint contains (old s : string) : bool :=
  starts_with old s
  || match s with
     | EmptyString => false
     | String _ s' => contains old s'
     end.

(** The first, and the last, character of [s] is one of [chars]. *)
Definition first_in (chars : list ascii) (s : string) : bool :=
  match s with
  | EmptyString => false
  | String c _ => in_chars chars c
  end.

Fixpoint last_in (chars : list ascii) (s : string) : bool :=
  match s with
  | EmptyString => false
  | String c EmptyString => in_chars chars c
  | String _ s' => last_in chars s'
  end.

End Names.

(* ===================================================================== *)
(** * More sample documents                                              *)
(* ===================================================================== *)

Module Samples.
Import Py Xml Run.

(** A header with two printers, the second <persName> empty. *)
Definition unnamed_printer_header : Element :=
  Examples.header
    [ Examples.elem "title" ∅ (Some "A declaration") [];
      Examples.elem "person" {[ "type" := "printer" ]} None
        [ Examples.elem "persName" ∅ (Some "Tho. Newcomb") [] ];
      Examples.elem "person" {[ "type" := "printer" ]} None
        [ Examples.elem "persName" ∅ None [] ] ].

(** A text with a front page and two books, one word each. *)
Definition two_books : Element :=
  Examples.elem "text" ∅ None
    [ Examples.elem "div" {[ "type" := "title_page" ]} None
        [ Examples.w_tag {[ "pos" := "n1" ]} (Some "Paradise") ];
      Examples.elem "div" {[ "type" := "book" ]} None
        [ Examples.elem "l" ∅ None
            [ Examples.w_tag {[ "pos" := "pp" ]} (Some "Of");
              Examples.w_tag {[ "pos" := "n2"; "reg" := "man's" ]} (Some "Mans") ] ];
      Examples.elem "div" {[ "type" := "book" ]} None
        [ Examples.elem "l" ∅ None
            [ Examples.w_tag {[ "pos" := "j" ]} (Some "High") ] ] ].

Definition printers_world : World :=
  Examples.world_of [ (Examples.header_1, Examples.printer_header);
                      (Examples.header_2, unnamed_printer_header) ].

End Samples.

(* ===================================================================== *)
(** * Properties                                                         *)
(* ===================================================================== *)

Import Py Xml Run.

(** ** The boundary test of get_sentences *)

(** C10.  In [get_sentences] the test
    [previous.get('unit', previous) == 'sentence'] gives, for every element
    [previous], the same answer as [previous.get('unit') == 'sentence']:
    when the attribute is absent the default that comes back is the element
    itself, and an element never compares equal to the string. *)
Theorem boundary_default_is_irrelevant :
  forall previous : Element,
    py_eq_str (get previous "unit" (PElem previous)) "sentence"
    = py_eq_str (get previous "unit" PNone) "sentence"
    /\ py_eq_str (PElem previous) "sentence" = false
    /\ Word2Vec.boundary_before (Some previous)
       = Word2Vec.boundary_before_plain (Some previous).
Proof.
  intros previous. unfold Word2Vec.boundary_before, Word2Vec.boundary_before_plain, get.
  destruct (attrib previous !! "unit"); simpl; auto.
Qed.

(** ** Tokenizing: tf_idf.py and similarity.py *)

Lemma lower_method_some lower s : lower_method lower (Some s) = Ok (lower s).
Proof. reflexivity. Qed.

Lemma get_text_with_text word attr t :
  get_text word attr (Some t) = Some (default t (attrib word !! attr)).
Proof. unfold get_text. destruct (attrib word !! attr); reflexivity. Qed.

Lemma words_of_omap lower attr word_tags :
  Tokens.words_of lower attr word_tags
  = Ok (omap (Tokens.token_if_text lower attr) word_tags).
Proof.
  induction word_tags as [| word rest IH]; simpl.
  - reflexivity.
  - unfold Tokens.token_if_text at 1. destruct (text word) as [t |] eqn:Ht; simpl.
    + rewrite get_text_with_text, lower_method_some, IH. reflexivity.
    + exact IH.
Qed.

(** C9.  The tokenizing comprehension of tf_idf.py ([attr = 'reg']) and
    similarity.py ([attr = 'lemma']) skips every <w> whose text is [None],
    whatever attributes it carries; so [.lower()] is only ever called on a
    [str] and the comprehension raises for no list of tags. *)
Theorem tokenizing_never_raises :
  forall (lower : string -> string) (attr : string) (word_tags : list Element),
    is_ok (Tokens.words_of lower attr word_tags) = true
    /\ Tokens.words_of lower attr word_tags
       = Ok (omap (Tokens.token_if_text lower attr) word_tags)
    /\ (forall tg at_ cs,
          Tokens.words_of lower attr (Elem tg at_ None cs :: word_tags)
          = Tokens.words_of lower attr word_tags)
    /\ (forall tg at_ t cs,
          exists tok : string,
            lower_method lower (get_text (Elem tg at_ (Some t) cs) attr (Some t))
            = Ok tok).
Proof.
  intros lower attr word_tags. split; [| split; [| split]].
  - rewrite words_of_omap. reflexivity.
  - apply words_of_omap.
  - intros tg at_ cs. reflexivity.
  - intros tg at_ t cs. rewrite get_text_with_text. eexists. reflexivity.
Qed.

(** ** Counting: Counter and the count table *)

Lemma count_element_lookup mapping elem term :
  Tokens.count_element mapping elem !! term
  = if decide (elem = term) then Some (default 0 (mapping !! elem) + 1)
    else mapping !! term.
Proof. unfold Tokens.count_element. apply lookup_insert. Qed.

Lemma fold_count_lookup (a : list string) :
  forall (mapping : gmap string nat) (term : string),
    fold_left Tokens.count_element a mapping !! term
    = match count_occ string_dec a term with
      | O => mapping !! term
      | S n => Some (default 0 (mapping !! term) + S n)
      end.
Proof.
  induction a as [| elem a IH]; intros mapping term; simpl.
  - reflexivity.
  - rewrite IH, count_element_lookup.
    destruct (string_dec elem term) as [-> | Hne].
    + rewrite decide_True by reflexivity.
      destruct (count_occ string_dec a term); simpl; f_equal; lia.
    + rewrite decide_False by exact Hne. reflexivity.
Qed.

Lemma Counter_lookup (a : list string) (term : string) :
  Tokens.Counter a !! term
  = match count_occ string_dec a term with
    | O => None
    | S n => Some (S n)
    end.
Proof.
  unfold Tokens.Counter. rewrite fold_count_lookup, lookup_empty.
  destruct (count_occ string_dec a term); reflexivity.
Qed.

Lemma elem_of_columns (all_tokenized : list (list string)) (term : string) :
  term ∈ Tokens.columns (Tokens.all_counted all_tokenized)
  <-> exists a, In a all_tokenized /\ In term a.
Proof.
  unfold Tokens.columns, Tokens.all_counted.
  rewrite elem_of_union_list. split.
  - intros (X & HX & Hterm).
    apply list_elem_of_fmap in HX as (m & -> & Hm).
    apply list_elem_of_In, in_map_iff in Hm as (a & <- & Ha).
    exists a. split; [exact Ha |].
    apply elem_of_dom in Hterm as [n Hn]. rewrite Counter_lookup in Hn.
    apply (count_occ_In string_dec).
    destruct (count_occ string_dec a term); [discriminate | lia].
  - intros (a & Ha & Hterm).
    exists (dom (Tokens.Counter a)). split.
    + apply list_elem_of_fmap. exists (Tokens.Counter a). split; [reflexivity |].
      apply list_elem_of_In, in_map. exact Ha.
    + apply elem_of_dom. rewrite Counter_lookup.
      apply (count_occ_In string_dec) in Hterm.
      destruct (count_occ string_dec a term); [lia | eauto].
Qed.

(** C7.  For the token list [a] of the [i]-th text, [Counter(a)] holds for
    every term that occurs in [a] exactly its number of occurrences and has
    no entry for any other term.  In the table [df], which is the frame of
    the counters with NaN filled by 0, the cell of that row at a term that
    occurs in some text of the corpus is the number of occurrences of the
    term in [a]: its count when [a] has it, 0 when only other texts do.  A
    term that occurs in no text has no column. *)
Theorem count_table_is_exact
    (all_tokenized : list (list string)) (i : nat) (a : list string)
    (term : string)
    (Hrow : all_tokenized !! i = Some a) :
  Tokens.Counter a !! term
  = (if (count_occ string_dec a term =? 0)%nat then None
     else Some (count_occ string_dec a term))
  /\ (In term a ->
      Tokens.Counter a !! term = Some (count_occ string_dec a term)
      /\ 0 < count_occ string_dec a term
      /\ Tokens.df all_tokenized i term = Some (count_occ string_dec a term))
  /\ (forall a', In a' all_tokenized -> In term a' ->
      Tokens.df all_tokenized i term = Some (count_occ string_dec a term))
  /\ (forall a', In a' all_tokenized -> In term a' -> ~ In term a ->
      Tokens.df all_tokenized i term = Some 0)
  /\ ((forall a', In a' all_tokenized -> ~ In term a') ->
      Tokens.df all_tokenized i term = None).
Proof.
  assert (Hin : In a all_tokenized).
  { apply list_elem_of_In. apply list_elem_of_lookup. eauto. }
  assert (Hdf : forall a', In a' all_tokenized -> In term a' ->
                Tokens.df all_tokenized i term = Some (count_occ string_dec a term)).
  { intros a' Ha' Hterm.
    unfold Tokens.df, Tokens.frame_cell.
    rewrite bool_decide_eq_true_2 by (apply elem_of_columns; eauto).
    unfold Tokens.all_counted. rewrite list_lookup_fmap, Hrow. simpl.
    rewrite Counter_lookup.
    destruct (count_occ string_dec a term); reflexivity. }
  split; [| split; [| split; [| split]]].
  - rewrite Counter_lookup. destruct (count_occ string_dec a term); reflexivity.
  - intros Hterm. pose proof (proj1 (count_occ_In string_dec a term) Hterm) as Hpos.
    split; [| split; [lia | apply (Hdf a Hin Hterm)]].
    rewrite Counter_lookup. destruct (count_occ string_dec a term); [lia | reflexivity].
  - exact Hdf.
  - intros a' Ha' Hterm Hnot. rewrite (Hdf a' Ha' Hterm). f_equal.
    apply count_occ_not_In. exact Hnot.
  - intros Hnone. unfold Tokens.df, Tokens.frame_cell.
    rewrite bool_decide_eq_false_2.
    + unfold Tokens.all_counted. rewrite list_lookup_fmap, Hrow. reflexivity.
    + intros Hcol. apply elem_of_columns in Hcol as (a' & Ha' & Hterm).
      exact (Hnone a' Ha' Hterm).
Qed.

Lemma count_table_is_exact_witness :
  Tokens.df [["the"; "fire"; "the"]; ["smoke"]] 0 "the" = Some 2
  /\ Tokens.df [["the"; "fire"; "the"]; ["smoke"]] 0 "fire" = Some 1
  /\ Tokens.df [["the"; "fire"; "the"]; ["smoke"]] 1 "the" = Some 0
  /\ Tokens.df [["the"; "fire"; "the"]; ["smoke"]] 0 "flame" = None.
Proof.
  split; [| split; [| split]].
  - destruct (count_table_is_exact [["the"; "fire"; "the"]; ["smoke"]] 0
                ["the"; "fire"; "the"] "the" eq_refl) as (_ & Hown & _).
    apply Hown. left. reflexivity.
  - destruct (count_table_is_exact [["the"; "fire"; "the"]; ["smoke"]] 0
                ["the"; "fire"; "the"] "fire" eq_refl) as (_ & Hown & _).
    apply Hown. right. left. reflexivity.
  - destruct (count_table_is_exact [["the"; "fire"; "the"]; ["smoke"]] 1
                ["smoke"] "the" eq_refl) as (_ & _ & _ & Hzero & _).
    apply (Hzero ["the"; "fire"; "the"]).
    + left. reflexivity.
    + left. reflexivity.
    + simpl. intros [H | []]. discriminate H.
  - destruct (count_table_is_exact [["the"; "fire"; "the"]; ["smoke"]] 0
                ["the"; "fire"; "the"] "flame" eq_refl) as (_ & _ & _ & _ & Hnone).
    apply Hnone. intros a' [<- | [<- | []]]; simpl;
      intros H; repeat (destruct H as [H | H]; [discriminate H |]); exact H.
Defined.

(** ** Sentences: ep_xml.py *)

Lemma sentence_step_plain all_s new_s tags :
  forallb (fun t => negb (EpXml.ends_sentence t)) tags = true ->
  fold_left EpXml.sentence_step tags (all_s, new_s)
  = (all_s, new_s ++ map text tags).
Proof.
  revert new_s. induction tags as [| tag rest IH]; intros new_s Hno; simpl.
  - rewrite app_nil_r. reflexivity.
  - simpl in Hno. apply andb_prop in Hno as [Htag Hrest].
    apply negb_true_iff in Htag. rewrite Htag.
    rewrite IH by exact Hrest. rewrite <- app_assoc. reflexivity.
Qed.

Lemma sentence_loop_segment tags :
  forall all_s new_s,
    fst (fold_left EpXml.sentence_step tags (all_s, new_s))
    = all_s ++ EpXml.segment EpXml.ends_sentence new_s tags.
Proof.
  induction tags as [| tag rest IH]; intros all_s new_s; simpl.
  - rewrite app_nil_r. reflexivity.
  - destruct (EpXml.ends_sentence tag); rewrite IH.
    + rewrite <- app_assoc. reflexivity.
    + reflexivity.
Qed.



Lemma segment_ext (f g : Element -> bool) tags :
  (forall t, In t tags -> f t = g t) ->
  forall current, EpXml.segment f current tags = EpXml.segment g current tags.
Proof.
  induction tags as [| tag rest IH]; intros Hfg current; simpl.
  - reflexivity.
  - rewrite (Hfg tag) by (left; reflexivity).
    destruct (g tag); rewrite IH; auto; intros t Ht; apply Hfg; right; exact Ht.
Qed.

(** On a sequence of at most 500 tags in which only <pc> elements carry
    [unit='sentence'], cell In[14] computes the segmentation of the
    tutorial text. *)
Lemma In14_meets_spec (paradiselost : Element) :
  length (xpath_w_or_pc paradiselost) <= 500 ->
  (forall t, In t (xpath_w_or_pc paradiselost) ->
             EpXml.ends_sentence t = true -> matches_tei "pc" t = true) ->
  EpXml.In14 paradiselost = EpXml.spec_sentences (xpath_w_or_pc paradiselost).
Proof.
  intros Hlen Hpc. unfold EpXml.In14, EpXml.all_sentences, EpXml.sentence_loop,
    EpXml.spec_sentences.
  rewrite sentence_loop_segment. simpl.
  rewrite firstn_all2 by exact Hlen.
  apply segment_ext. intros t Ht.
  specialize (Hpc t Ht).
  unfold EpXml.is_sentence_pc, EpXml.ends_sentence, has_attrib, get in *.
  destruct (attrib t !! "unit") as [u |] eqn:Hu; simpl in *.
  - destruct (String.eqb u "sentence") eqn:Heq.
    + rewrite Hpc by reflexivity. apply String.eqb_eq in Heq. subst u.
      rewrite bool_decide_eq_true_2 by reflexivity. reflexivity.
    + symmetry. apply andb_false_intro2.
      apply bool_decide_eq_false_2. intros [= ->].
      rewrite String.eqb_refl in Heq. discriminate.
  - symmetry. apply andb_false_r.
Qed.

(** ** Sentences: get_sentences in word2vec.py *)

Section GetSentences.
Variable lower : string -> string.

Lemma get_sentences_loop_cons previous word rest new_s tr g :
  Word2Vec.get_sentences_loop lower ((previous, word) :: rest) new_s (tr, g)
  = let g1 := if Word2Vec.boundary_before previous then g ++ [new_s] else g in
    let new1 := if Word2Vec.boundary_before previous then [] else new_s in
    match Word2Vec.token_of lower word with
    | Ok token => Word2Vec.get_sentences_loop lower rest (new1 ++ [token]) (tr, g1)
    | Raise e => ((tr, g1), Raise e)
    end.
Proof.
  simpl. unfold bind, modify, lift, ret.
  destruct (Word2Vec.boundary_before previous); simpl;
    destruct (Word2Vec.token_of lower word); reflexivity.
Qed.

Lemma get_sentences_loop_trace words :
  forall new_s tr g,
    trace_of (Word2Vec.get_sentences_loop lower words new_s (tr, g)) = tr.
Proof.
  induction words as [| [previous word] rest IH]; intros new_s tr g.
  - reflexivity.
  - rewrite get_sentences_loop_cons. simpl.
    destruct (Word2Vec.token_of lower word); [apply IH | reflexivity].
Qed.

Lemma get_sentences_loop_no_boundary words :
  forallb (fun pw => negb (Word2Vec.boundary_before (fst pw))) words = true ->
  forall new_s tr g,
    globals_of (Word2Vec.get_sentences_loop lower words new_s (tr, g)) = g.
Proof.
  induction words as [| [previous word] rest IH]; intros Hno new_s tr g.
  - reflexivity.
  - simpl in Hno. apply andb_prop in Hno as [Hp Hrest].
    apply negb_true_iff in Hp.
    rewrite get_sentences_loop_cons, Hp. simpl.
    destruct (Word2Vec.token_of lower word); [apply IH; exact Hrest | reflexivity].
Qed.

Lemma get_sentences_loop_tail words tail :
  forallb (fun pw => negb (Word2Vec.boundary_before (fst pw))) tail = true ->
  forall new_s tr g,
    globals_of (Word2Vec.get_sentences_loop lower (words ++ tail) new_s (tr, g))
    = globals_of (Word2Vec.get_sentences_loop lower words new_s (tr, g)).
Proof.
  intros Hno. induction words as [| [previous word] rest IH]; intros new_s tr g.
  - simpl app. rewrite get_sentences_loop_no_boundary by exact Hno. reflexivity.
  - simpl app. rewrite !get_sentences_loop_cons. simpl.
    destruct (Word2Vec.token_of lower word); [apply IH | reflexivity].
Qed.

Lemma get_sentences_loop_frame words :
  forall new_s tr tr' g,
    Word2Vec.get_sentences_loop lower words new_s (tr, g)
    = ((tr, g ++ globals_of (Word2Vec.get_sentences_loop lower words new_s (tr', []))),
       outcome_of (Word2Vec.get_sentences_loop lower words new_s (tr', []))).
Proof.
  induction words as [| [previous word] rest IH]; intros new_s tr tr' g.
  - simpl. unfold ret. simpl. rewrite app_nil_r. reflexivity.
  - rewrite !get_sentences_loop_cons. cbv zeta.
    destruct (Word2Vec.token_of lower word) as [token | e].
    + destruct (Word2Vec.boundary_before previous).
      * rewrite (IH _ tr tr' (g ++ [new_s])), (IH _ tr' tr' ([] ++ [new_s])).
        unfold globals_of, outcome_of. simpl.
        rewrite <- app_assoc. reflexivity.
      * apply IH.
    + destruct (Word2Vec.boundary_before previous); unfold globals_of, outcome_of;
        simpl; rewrite ?app_nil_r; reflexivity.
Qed.

Lemma get_sentences_loop_app words1 words2 :
  forall new_s tr g,
    Word2Vec.get_sentences_loop lower (words1 ++ words2) new_s (tr, g)
    = match Word2Vec.get_sentences_loop lower words1 new_s (tr, g) with
      | (s', Ok last) => Word2Vec.get_sentences_loop lower words2 last s'
      | (s', Raise e) => (s', Raise e)
      end.
Proof.
  induction words1 as [| [previous word] rest IH]; intros new_s tr g.
  - reflexivity.
  - simpl app. rewrite !get_sentences_loop_cons. cbv zeta.
    destruct (Word2Vec.token_of lower word); [apply IH | reflexivity].
Qed.

Lemma get_sentences_loop_after_boundary words cw tail :
  forallb (fun pw => negb (Word2Vec.boundary_before (fst pw))) tail = true ->
  forall new_s tr g,
    globals_of (Word2Vec.get_sentences_loop lower (words ++ cw :: tail) new_s (tr, g))
    = match Word2Vec.get_sentences_loop lower words new_s (tr, g) with
      | (s', Ok last) =>
          if Word2Vec.boundary_before (fst cw) then snd s' ++ [last] else snd s'
      | (s', Raise _) => snd s'
      end.
Proof.
  intros Hno new_s tr g. rewrite get_sentences_loop_app.
  destruct (Word2Vec.get_sentences_loop lower words new_s (tr, g))
    as [[tr' g'] [last | e]]; [| reflexivity].
  destruct cw as [previous word]. rewrite get_sentences_loop_cons. cbv zeta.
  simpl fst. simpl snd.
  destruct (Word2Vec.token_of lower word).
  - rewrite get_sentences_loop_no_boundary by exact Hno.
    destruct (Word2Vec.boundary_before previous); reflexivity.
  - destruct (Word2Vec.boundary_before previous); reflexivity.
Qed.

Lemma get_sentences_unfold (w : World) filename tr g :
  Word2Vec.get_sentences lower w filename (tr, g)
  = match file_xml w filename with
    | Some xml =>
        match Word2Vec.get_sentences_loop lower (iter_w_prev xml) []
                (tr ++ [ParseXml filename], g) with
        | (s', Ok _) => (s', Ok tt)
        | (s', Raise e) => (s', Raise e)
        end
    | None => ((tr ++ [ParseXml filename], g), Raise ParseError)
    end.
Proof.
  unfold Word2Vec.get_sentences, parse, bind, emit, ret, raise. simpl.
  destruct (file_xml w filename) as [xml |]; [| reflexivity].
  destruct (Word2Vec.get_sentences_loop lower (iter_w_prev xml) [] _)
    as [s' [last | e]]; reflexivity.
Qed.

Lemma get_sentences_globals (w : World) filename tr g :
  globals_of (Word2Vec.get_sentences lower w filename (tr, g))
  = match file_xml w filename with
    | Some xml =>
        globals_of (Word2Vec.get_sentences_loop lower (iter_w_prev xml) []
                      (tr ++ [ParseXml filename], g))
    | None => g
    end.
Proof.
  rewrite get_sentences_unfold.
  destruct (file_xml w filename) as [xml |]; [| reflexivity].
  destruct (Word2Vec.get_sentences_loop lower (iter_w_prev xml) [] _)
    as [s' [last | e]]; reflexivity.
Qed.

Lemma get_sentences_loop_outcome words :
  forall new_s tr g,
    let r := Word2Vec.get_sentences_loop lower words new_s (tr, g) in
    exists added : list (list string),
      globals_of r = g ++ added
      /\ match outcome_of r with
         | Ok last =>
             length added = length (Word2Vec.closing_words words)
             /\ exists toks, Word2Vec.tokens_of lower words = Ok toks
                             /\ concat added ++ last = new_s ++ toks
         | Raise e =>
             length added <= length (Word2Vec.closing_words words)
             /\ Word2Vec.tokens_of lower words = Raise e
         end.
Proof.
  induction words as [| [previous word] rest IH]; intros new_s tr g.
  - exists []. simpl. rewrite !app_nil_r. split; [reflexivity |].
    split; [reflexivity |]. exists []. rewrite app_nil_r. split; reflexivity.
  - cbv zeta. rewrite get_sentences_loop_cons. cbv zeta.
    unfold Word2Vec.closing_words. rewrite filter_cons. simpl fst.
    fold (Word2Vec.closing_words rest).
    simpl Word2Vec.tokens_of.
    destruct (Word2Vec.token_of lower word) as [token | e].
    + destruct (Word2Vec.boundary_before previous).
      * rewrite decide_True by reflexivity.
        destruct (IH ([] ++ [token]) tr (g ++ [new_s])) as (added & Hg & Hout).
        exists (new_s :: added). split.
        { transitivity ((g ++ [new_s]) ++ added); [exact Hg |].
          rewrite <- app_assoc. reflexivity. }
        destruct (outcome_of _) as [last | e].
        -- destruct Hout as (Hlen & toks & Htoks & Hcat).
           split; [simpl; lia |].
           exists (token :: toks). rewrite Htoks. split; [reflexivity |].
           simpl. rewrite <- app_assoc, Hcat. reflexivity.
        -- destruct Hout as (Hlen & Htoks). rewrite Htoks.
           split; [simpl; lia | reflexivity].
      * rewrite decide_False by discriminate.
        destruct (IH (new_s ++ [token]) tr g) as (added & Hg & Hout).
        exists added. split; [exact Hg |].
        destruct (outcome_of _) as [last | e].
        -- destruct Hout as (Hlen & toks & Htoks & Hcat).
           split; [exact Hlen |].
           exists (token :: toks). rewrite Htoks. split; [reflexivity |].
           rewrite Hcat, <- app_assoc. reflexivity.
        -- destruct Hout as (Hlen & Htoks). rewrite Htoks.
           split; [exact Hlen | reflexivity].
    + destruct (Word2Vec.boundary_before previous).
      * exists [new_s]. simpl. split; [reflexivity |].
        split; [lia | reflexivity].
      * exists []. simpl. rewrite app_nil_r. split; [reflexivity |].
        split; [lia | reflexivity].
Qed.

End GetSentences.

(** C8.  Whatever follows the last sentence boundary is dropped.  In the
    loop of ep_xml.py, tags after the last marker change nothing in
    [all_sentences]: their texts sit in [new_sentence] when the loop ends,
    and nothing appends that list.  In [get_sentences], words after the last
    word that closes a sentence leave the global [all_sentences] as it was;
    that closing word itself only files the sentence before it, and the
    function returns without appending the list it was still filling. *)
Theorem trailing_tokens_are_dropped
    (lower : string -> string)
    (tags tail : list Element)
    (words wtail : list (option Element * Element))
    (new_s : list string) (tr : list Effect) (g : Word2Vec.Globals)
    (Htail : forallb (fun t => negb (EpXml.ends_sentence t)) tail = true)
    (Hwtail : forallb (fun pw => negb (Word2Vec.boundary_before (fst pw))) wtail
              = true) :
  EpXml.all_sentences (tags ++ tail) = EpXml.all_sentences tags
  /\ EpXml.new_sentence (tags ++ tail) = EpXml.new_sentence tags ++ map text tail
  /\ globals_of (Word2Vec.get_sentences_loop lower (words ++ wtail) new_s (tr, g))
     = globals_of (Word2Vec.get_sentences_loop lower words new_s (tr, g))
  /\ (forall cw,
        globals_of (Word2Vec.get_sentences_loop lower (words ++ cw :: wtail)
                      new_s (tr, g))
        = match Word2Vec.get_sentences_loop lower words new_s (tr, g) with
          | (s', Ok last) =>
              if Word2Vec.boundary_before (fst cw) then snd s' ++ [last]
              else snd s'
          | (s', Raise _) => snd s'
          end)
  /\ (forall (w : World) (filename : string),
        globals_of (Word2Vec.get_sentences lower w filename (tr, g))
        = match file_xml w filename with
          | Some xml =>
              globals_of (Word2Vec.get_sentences_loop lower (iter_w_prev xml) []
                            (tr ++ [ParseXml filename], g))
          | None => g
          end).
Proof.
  assert (Hloop : EpXml.sentence_loop (tags ++ tail)
                  = (EpXml.all_sentences tags,
                     EpXml.new_sentence tags ++ map text tail)).
  { unfold EpXml.all_sentences, EpXml.new_sentence, EpXml.sentence_loop.
    rewrite fold_left_app.
    destruct (fold_left EpXml.sentence_step tags ([], [])) as [all_s cur].
    apply sentence_step_plain. exact Htail. }
  split; [| split; [| split; [| split]]].
  - unfold EpXml.all_sentences at 1. rewrite Hloop. reflexivity.
  - unfold EpXml.new_sentence at 1. rewrite Hloop. reflexivity.
  - apply get_sentences_loop_tail. exact Hwtail.
  - intros cw. apply get_sentences_loop_after_boundary. exact Hwtail.
  - intros w filename. apply get_sentences_globals.
Qed.

Lemma trailing_tokens_are_dropped_witness :
  EpXml.all_sentences Examples.arms_and_the_man
  = [[Some "Arms"; Some "."]; [Some "And"]]
  /\ EpXml.new_sentence Examples.arms_and_the_man = [Some "the"; Some "man"]
  /\ globals_of (Word2Vec.get_sentences_loop ascii_lower
                   (iter_w_prev Examples.arms_line) [] ([], []))
     = [["arm"]; ["and"]].
Proof.
  pose proof (trailing_tokens_are_dropped ascii_lower
                (firstn 4 Examples.arms_and_the_man)
                (skipn 4 Examples.arms_and_the_man)
                (firstn 3 (iter_w_prev Examples.arms_line))
                (skipn 3 (iter_w_prev Examples.arms_line))
                [] [] [] eq_refl eq_refl) as (Hall & Hnew & Hglob & _).
  split; [| split].
  - change (EpXml.all_sentences
              (firstn 4 Examples.arms_and_the_man ++ skipn 4 Examples.arms_and_the_man)
            = [[Some "Arms"; Some "."]; [Some "And"]]).
    rewrite Hall. vm_compute. reflexivity.
  - change (EpXml.new_sentence
              (firstn 4 Examples.arms_and_the_man ++ skipn 4 Examples.arms_and_the_man)
            = [Some "the"; Some "man"]).
    rewrite Hnew. vm_compute. reflexivity.
  - transitivity
      (globals_of (Word2Vec.get_sentences_loop ascii_lower
                     (firstn 3 (iter_w_prev Examples.arms_line)
                      ++ skipn 3 (iter_w_prev Examples.arms_line)) [] ([], []))).
    + rewrite firstn_skipn. reflexivity.
    + etransitivity; [exact Hglob | vm_compute; reflexivity].
Defined.



(** ** Shared state: the global list of get_sentences *)

Lemma for_each_cons {G X} (x : X) (xs : list X) (body : X -> M G unit) s :
  for_each (x :: xs) body s
  = match body x s with
    | (s', Ok _) => for_each xs body s'
    | (s', Raise e) => (s', Raise e)
    end.
Proof. reflexivity. Qed.

Lemma appends_only_for_each {X Y} (body : Y -> M (list X) unit) (xs : list Y) :
  (forall x, appends_only (body x)) -> appends_only (for_each xs body).
Proof.
  intros Hbody. induction xs as [| x xs IH]; intros tr g.
  - simpl. unfold ret, trace_of, globals_of, outcome_of. simpl.
    rewrite !app_nil_r. reflexivity.
  - rewrite !for_each_cons. rewrite (Hbody x tr g).
    destruct (body x ([], [])) as [[t0 g0] [[] | e]];
      unfold trace_of, globals_of, outcome_of; simpl.
    + rewrite (IH (tr ++ t0) (g ++ g0)), (IH t0 g0).
      unfold trace_of, globals_of, outcome_of. simpl.
      rewrite <- !app_assoc. reflexivity.
    + reflexivity.
Qed.

Lemma get_sentences_appends_only lower (w : World) filename :
  appends_only (Word2Vec.get_sentences lower w filename).
Proof.
  intros tr g. rewrite !get_sentences_unfold.
  destruct (file_xml w filename) as [xml |].
  - rewrite (get_sentences_loop_frame lower _ _ (tr ++ [ParseXml filename]) [] g).
    rewrite (get_sentences_loop_frame lower _ _ ([] ++ [ParseXml filename]) [] []).
    destruct (Word2Vec.get_sentences_loop lower (iter_w_prev xml) [] ([], []))
      as [[t0 g0] [last | e]];
      unfold trace_of, globals_of, outcome_of; simpl; reflexivity.
  - unfold trace_of, globals_of, outcome_of. simpl. rewrite app_nil_r. reflexivity.
Qed.

(** C3, as the code has it.  [get_sentences] does change state that is not
    local to it: every call appends the sentences it closes to the
    module-level list [all_sentences] and touches nothing else, whatever the
    list held before stays in front; over the files of the run the list
    accumulates the sentences of each file in turn.  The run itself starts
    from an empty list. *)
Theorem get_sentences_appends_to_global
    (lower : string -> string) (w : World) (filename : string)
    (files : list string) (tr : list Effect) (g : Word2Vec.Globals) :
  appends_only (Word2Vec.get_sentences lower w filename)
  /\ appends_only (for_each files (Word2Vec.get_sentences lower w))
  /\ globals_of (Word2Vec.get_sentences lower w filename (tr, g))
     = g ++ globals_of (Word2Vec.get_sentences lower w filename ([], []))
  /\ trace_of (Word2Vec.get_sentences lower w filename (tr, g))
     = tr ++ [ParseXml filename]
  /\ globals_of (for_each (filename :: files) (Word2Vec.get_sentences lower w) (tr, g))
     = g ++ globals_of (Word2Vec.get_sentences lower w filename ([], []))
         ++ (if is_ok (outcome_of (Word2Vec.get_sentences lower w filename ([], [])))
             then globals_of (for_each files (Word2Vec.get_sentences lower w) ([], []))
             else [])
  /\ snd (fst (Word2Vec.run_In3 lower w))
     = globals_of (for_each (glob_result w "1666_texts_full/*.xml")
                     (Word2Vec.get_sentences lower w) ([], [])).
Proof.
  pose proof (get_sentences_appends_only lower w filename) as Hone.
  pose proof (appends_only_for_each (Word2Vec.get_sentences lower w) files
                (get_sentences_appends_only lower w)) as Hall.
  split; [exact Hone |]. split; [exact Hall |].
  split; [| split; [| split]].
  - rewrite (Hone tr g). reflexivity.
  - rewrite get_sentences_unfold.
    destruct (file_xml w filename) as [xml |]; [| reflexivity].
    pose proof (get_sentences_loop_trace lower (iter_w_prev xml) []
                  (tr ++ [ParseXml filename]) g) as Ht.
    destruct (Word2Vec.get_sentences_loop lower (iter_w_prev xml) [] _)
      as [[t1 g1] [last | e]]; exact Ht.
  - rewrite for_each_cons, (Hone tr g).
    destruct (Word2Vec.get_sentences lower w filename ([], []))
      as [[t0 g0] [[] | e]]; unfold trace_of, globals_of, outcome_of; simpl.
    + rewrite (Hall (tr ++ t0) (g ++ g0)). unfold globals_of. simpl.
      rewrite <- app_assoc. reflexivity.
    + rewrite app_nil_r. reflexivity.
  - unfold Word2Vec.run_In3, Word2Vec.In3, glob, bind, emit, ret. simpl.
    rewrite (appends_only_for_each (Word2Vec.get_sentences lower w)
               (glob_result w "1666_texts_full/*.xml")
               (get_sentences_appends_only lower w)
               [GlobFiles "1666_texts_full/*.xml"] []).
    reflexivity.
Qed.

(** C3 as stated fails: a call to [get_sentences] does not leave everything
    outside its own locals untouched.  On the file
    [<p><w>arms</w><pc unit="sentence">.</pc><w>and</w></p>] the global
    [all_sentences] is [[]] before the call and [[["arms"]]] after it. *)
Lemma get_sentences_mutates_global :
  ~ (forall (lower : string -> string) (w : World) (filename : string)
            (s : list Effect * Word2Vec.Globals),
        globals_of (Word2Vec.get_sentences lower w filename s) = snd s).
Proof.
  intros H.
  specialize (H ascii_lower
                (Examples.world_of [("1666_texts_full/A.xml", Examples.arms_and)])
                "1666_texts_full/A.xml" ([], [])).
  vm_compute in H. discriminate H.
Qed.

(** ** The metadata loops *)

Lemma get_author_run {G} (metadata : Element) (s : list Effect * G) :
  Metadata.get_author metadata s = (s, Ok (Metadata.author (Metadata.row_of metadata))).
Proof.
  unfold Metadata.get_author, try_except, lift, ret, text_of_found. simpl.
  destruct (find_desc_desc "sourceDesc" "author" metadata); reflexivity.
Qed.

Lemma get_date_run {G} (metadata : Element) (s : list Effect * G) :
  Metadata.get_date metadata s = (s, Ok (Metadata.date (Metadata.row_of metadata))).
Proof.
  unfold Metadata.get_date, try_except, lift, ret, get_of_found. simpl.
  destruct (find_desc_desc "sourceDesc" "date" metadata); reflexivity.
Qed.

Lemma parse_run {G} (w : World) (f : string) (tr : list Effect) (g : G) :
  parse w f (tr, g)
  = ((tr ++ [ParseXml f], g),
     match file_xml w f with Some doc => Ok doc | None => Raise ParseError end).
Proof.
  unfold parse, bind, emit, ret, raise. simpl.
  destruct (file_xml w f); reflexivity.
Qed.

(** What the guarded part of both loop bodies does once the file is parsed. *)
Lemma row_building_run (metadata : Element) (tcp_id : string) tr g :
  (title <- lift (Metadata.get_title metadata) ;;
   author <- Metadata.get_author metadata ;;
   date <- Metadata.get_date metadata ;;
   modify (Metadata.append_row (Metadata.mkRow title author date)) ;;;
   modify (Metadata.append_index tcp_id)) (tr, g)
  = if Metadata.has_title metadata then
      ((tr, Metadata.append_index tcp_id
              (Metadata.append_row (Metadata.row_of metadata) g)), Ok tt)
    else ((tr, g), Raise AttributeError).
Proof.
  unfold bind at 1. unfold lift at 1. unfold Metadata.get_title, Metadata.has_title.
  unfold Metadata.row_of at 1.
  destruct (find_desc_desc "sourceDesc" "title" metadata) as [e |]; simpl;
    [| reflexivity].
  unfold bind at 1. rewrite get_author_run.
  unfold bind at 1. rewrite get_date_run.
  reflexivity.
Qed.

Lemma In4_body_run (w : World) (f : string) tr g :
  Metadata.In4_body w f (tr, g)
  = match file_xml w f with
    | None => ((tr ++ [ParseXml f], g), Raise ParseError)
    | Some metadata =>
        if Metadata.has_title metadata then
          ((tr ++ [ParseXml f],
            Metadata.append_index (Metadata.tcp_id_of f)
              (Metadata.append_row (Metadata.row_of metadata) g)), Ok tt)
        else ((tr ++ [ParseXml f], g), Raise AttributeError)
    end.
Proof.
  unfold Metadata.In4_body. unfold bind at 1. rewrite parse_run.
  destruct (file_xml w f) as [metadata |]; [| reflexivity].
  apply row_building_run.
Qed.

Lemma In59_body_run (w : World) (filekeys : list string) (f : string) tr g :
  Metadata.In59_body w filekeys f (tr, g)
  = if bool_decide (Metadata.tcp_id_of f ∈ filekeys) then
      Metadata.In4_body w f (tr, g)
    else ((tr, g), Ok tt).
Proof.
  unfold Metadata.In59_body, Metadata.In4_body.
  destruct (bool_decide (Metadata.tcp_id_of f ∈ filekeys)); reflexivity.
Qed.

Lemma with_rows_nil w g : Metadata.with_rows w [] g = g.
Proof.
  destruct g. unfold Metadata.with_rows, Metadata.rows_of. simpl.
  rewrite !app_nil_r. reflexivity.
Qed.

Lemma with_rows_cons w f files metadata g :
  file_xml w f = Some metadata ->
  Metadata.with_rows w (f :: files) g
  = Metadata.with_rows w files
      (Metadata.append_index (Metadata.tcp_id_of f)
         (Metadata.append_row (Metadata.row_of metadata) g)).
Proof.
  intros Hf. unfold Metadata.with_rows, Metadata.rows_of,
    Metadata.append_index, Metadata.append_row. simpl.
  rewrite Hf. simpl. rewrite <- !app_assoc. reflexivity.
Qed.

Lemma In4_loop_run (w : World) (files : list string) :
  Forall (Metadata.titled w) files ->
  forall tr g,
    Metadata.In4_loop w files (tr, g)
    = ((tr ++ map ParseXml files, Metadata.with_rows w files g), Ok tt).
Proof.
  unfold Metadata.In4_loop.
  induction 1 as [| f files (metadata & Hf & Ht) _ IH]; intros tr g.
  - simpl. unfold ret. rewrite app_nil_r, with_rows_nil. reflexivity.
  - rewrite for_each_cons, In4_body_run, Hf, Ht, IH.
    rewrite (with_rows_cons w f files metadata g Hf).
    simpl. rewrite <- app_assoc. reflexivity.
Qed.

Lemma In59_loop_run (w : World) (filekeys files : list string) :
  Forall (Metadata.titled w) (Metadata.admitted filekeys files) ->
  forall tr g,
    Metadata.In59_loop w filekeys files (tr, g)
    = ((tr ++ map ParseXml (Metadata.admitted filekeys files),
        Metadata.with_rows w (Metadata.admitted filekeys files) g), Ok tt).
Proof.
  unfold Metadata.In59_loop, Metadata.admitted.
  induction files as [| f files IH]; intros Hall tr g.
  - simpl. unfold ret. rewrite app_nil_r, with_rows_nil. reflexivity.
  - rewrite for_each_cons, In59_body_run. simpl in Hall |- *.
    destruct (bool_decide (Metadata.tcp_id_of f ∈ filekeys)).
    + inversion Hall as [| ? ? (metadata & Hf & Ht) Hrest]; subst.
      rewrite In4_body_run, Hf, Ht, (IH Hrest).
      rewrite (with_rows_cons w f _ metadata g Hf).
      simpl. rewrite <- app_assoc. reflexivity.
    + apply IH. exact Hall.
Qed.

Lemma rows_of_length (w : World) (files : list string) :
  Forall (Metadata.titled w) files ->
  length (Metadata.rows_of w files) = length files.
Proof.
  unfold Metadata.rows_of.
  induction 1 as [| f files (metadata & Hf & _) _ IH]; simpl.
  - reflexivity.
  - rewrite Hf. simpl. f_equal. exact IH.
Qed.

Lemma for_each_app {G X} (xs ys : list X) (body : X -> M G unit) s :
  for_each (xs ++ ys) body s
  = match for_each xs body s with
    | (s', Ok _) => for_each ys body s'
    | (s', Raise e) => (s', Raise e)
    end.
Proof.
  revert s. induction xs as [| x xs IH]; intros s.
  - reflexivity.
  - simpl app. rewrite !for_each_cons.
    destruct (body x s) as [s' [[] | e]]; [apply IH | reflexivity].
Qed.

(** C5, as the code has it.  For files that parse and have a title element,
    the loop of metadata.py appends exactly one row and one index entry per
    file, in order; in a row the author is [None] when there is no author
    element, and the date is [None] when there is no date element or the
    element has no [when] attribute.  The title lookup is not guarded: at a
    file without a title element the loop stops with AttributeError, after
    the rows of the files before it and with no row for that file or any
    later one.  In similarity.py the same body runs only for the files whose
    TCP ID is among [filekeys]; the other files get no row. *)
Theorem metadata_rows_as_coded
    (w : World) (files rest filekeys : list string) (bad : string)
    (tr : list Effect) (g : Metadata.Globals)
    (Hfiles : Forall (Metadata.titled w) files) :
  Metadata.In4_loop w files (tr, g)
  = ((tr ++ map ParseXml files, Metadata.with_rows w files g), Ok tt)
  /\ length (Metadata.rows_of w files) = length files
  /\ (forall metadata : Element,
        (find_desc_desc "sourceDesc" "author" metadata = None ->
         Metadata.author (Metadata.row_of metadata) = None)
        /\ (find_desc_desc "sourceDesc" "date" metadata = None ->
            Metadata.date (Metadata.row_of metadata) = None)
        /\ (forall e, find_desc_desc "sourceDesc" "date" metadata = Some e ->
                      Metadata.date (Metadata.row_of metadata) = attrib e !! "when")
        /\ (forall e, find_desc_desc "sourceDesc" "author" metadata = Some e ->
                      Metadata.author (Metadata.row_of metadata) = text e)
        /\ (forall e, find_desc_desc "sourceDesc" "title" metadata = Some e ->
                      Metadata.title (Metadata.row_of metadata) = text e))
  /\ (forall metadata : Element,
        file_xml w bad = Some metadata ->
        Metadata.has_title metadata = false ->
        Metadata.In4_loop w (files ++ bad :: rest) (tr, g)
        = ((tr ++ map ParseXml files ++ [ParseXml bad],
            Metadata.with_rows w files g), Raise AttributeError))
  /\ Metadata.In59_loop w filekeys files (tr, g)
     = ((tr ++ map ParseXml (Metadata.admitted filekeys files),
         Metadata.with_rows w (Metadata.admitted filekeys files) g), Ok tt).
Proof.
  split; [apply In4_loop_run; exact Hfiles |].
  split; [apply rows_of_length; exact Hfiles |].
  split; [| split].
  - intros metadata. unfold Metadata.row_of. simpl.
    repeat split.
    + intros ->. reflexivity.
    + intros ->. reflexivity.
    + intros e ->. unfold get_text. destruct (attrib e !! "when"); reflexivity.
    + intros e ->. reflexivity.
    + intros e ->. reflexivity.
  - intros metadata Hbad Hno. unfold Metadata.In4_loop.
    rewrite for_each_app. fold (Metadata.In4_loop w files).
    rewrite In4_loop_run by exact Hfiles.
    rewrite for_each_cons, In4_body_run, Hbad, Hno.
    rewrite <- app_assoc. reflexivity.
  - apply In59_loop_run. unfold Metadata.admitted.
    rewrite List.Forall_forall in Hfiles |- *. intros f Hf.
    apply Hfiles. apply filter_In in Hf. tauto.
Qed.

Lemma metadata_rows_as_coded_witness :
  Metadata.all_data
    (globals_of (Metadata.In4_loop Examples.header_world
                   [Examples.header_1; Examples.header_2] ([], Metadata.no_globals)))
  = [ Metadata.mkRow (Some "Annus mirabilis") (Some "Dryden, John, 1631-1700.")
                     (Some "1667");
      Metadata.mkRow (Some "A proclamation") None None ].
Proof.
  assert (Hfiles : Forall (Metadata.titled Examples.header_world)
                          [Examples.header_1; Examples.header_2]).
  { repeat constructor.
    - exists Examples.full_header. split; reflexivity.
    - exists Examples.title_only_header. split; reflexivity. }
  destruct (metadata_rows_as_coded Examples.header_world
              [Examples.header_1; Examples.header_2] [] [] ""
              [] Metadata.no_globals Hfiles) as (Hrun & _).
  rewrite Hrun. reflexivity.
Defined.

(** C5 as stated fails for the title.  With a first header file that has no
    title element and a second, complete one, the loop of metadata.py ends
    with AttributeError after parsing the first file: no [None] is
    substituted, no row is appended for the first file, and the second file
    is never processed. *)
Lemma missing_title_aborts_the_loop :
  outcome_of (Metadata.In4_loop Examples.header_world
                [Examples.header_3; Examples.header_1] ([], Metadata.no_globals))
  = Raise AttributeError
  /\ Metadata.all_data
       (globals_of (Metadata.In4_loop Examples.header_world
                      [Examples.header_3; Examples.header_1] ([], Metadata.no_globals)))
     = []
  /\ trace_of (Metadata.In4_loop Examples.header_world
                 [Examples.header_3; Examples.header_1] ([], Metadata.no_globals))
     = [ParseXml Examples.header_3]
  /\ length (Metadata.all_data
               (globals_of (Metadata.In4_loop Examples.header_world
                              [Examples.header_1] ([], Metadata.no_globals))))
     = 1.
Proof.
  repeat split; vm_compute; reflexivity.
Qed.

(** ** The external calls of a run *)

Section Traces.
Context {G : Type}.

Lemma tw_eq {A} (m : M G A) full full' :
  traces_within m full -> full = full' -> traces_within m full'.
Proof. intros H <-. exact H. Qed.

Lemma tw_exact {A} (m : M G A) calls :
  emits_exactly m calls -> traces_within m calls.
Proof.
  intros H s. exists calls. split; [apply H |]. split; [reflexivity | auto].
Qed.

Lemma tw_ret {A} (a : A) : traces_within (ret a : M G A) [].
Proof. intros s. exists []. simpl. rewrite app_nil_r. auto. Qed.

Lemma tw_raise {A} (e : Exc) : traces_within (raise e : M G A) [].
Proof. intros s. exists []. simpl. rewrite app_nil_r. auto. Qed.

Lemma tw_lift {A} (o : Outcome A) : traces_within (lift o : M G A) [].
Proof. intros s. exists []. simpl. rewrite app_nil_r. auto. Qed.

Lemma tw_modify (f : G -> G) : traces_within (modify f) [].
Proof. intros s. exists []. simpl. rewrite app_nil_r. auto. Qed.

Lemma tw_emit (e : Effect) : traces_within (emit e : M G unit) [e].
Proof. intros s. exists [e]. simpl. auto. Qed.

Lemma tw_bind {A B} (m : M G A) (k : A -> M G B) full1 full2 :
  traces_within m full1 ->
  (forall a s, outcome_of (m s) = Ok a -> traces_within (k a) full2) ->
  traces_within (bind m k) (full1 ++ full2).
Proof.
  intros Hm Hk s. destruct (Hm s) as (done1 & Ht1 & Hp1 & Hok1).
  specialize (Hk) with (s := s). unfold bind.
  destruct (m s) as [s' [a | e]] eqn:Hms; unfold trace_of, outcome_of in *; simpl in *.
  - specialize (Hok1 eq_refl). subst done1.
    destruct (Hk a eq_refl s') as (done2 & Ht2 & Hp2 & Hok2).
    exists (full1 ++ done2). unfold trace_of, outcome_of in *.
    rewrite Ht2, Ht1, <- app_assoc. split; [reflexivity |].
    split; [apply prefix_app; exact Hp2 |].
    intros Hok. rewrite (Hok2 Hok). reflexivity.
  - exists done1. split; [exact Ht1 |].
    split; [apply prefix_app_r; exact Hp1 | discriminate].
Qed.

Lemma tw_seq {A B} (m : M G A) (k : A -> M G B) full1 full2 :
  traces_within m full1 ->
  (forall a, traces_within (k a) full2) ->
  traces_within (bind m k) (full1 ++ full2).
Proof. intros Hm Hk. apply tw_bind; auto. Qed.

Lemma tw_emit_bind {B} (e : Effect) (k : unit -> M G B) full :
  traces_within (k tt) full -> traces_within (bind (emit e) k) (e :: full).
Proof.
  intros Hk. apply (tw_bind (emit e) k [e] full (tw_emit e)).
  intros [] s _. exact Hk.
Qed.

Lemma tw_lift_bind {A B} (o : Outcome A) (k : A -> M G B) full :
  (forall a, o = Ok a -> traces_within (k a) full) ->
  traces_within (bind (lift o) k) full.
Proof.
  intros Hk. apply (tw_bind (lift o) k [] full (tw_lift o)).
  intros a s Ho. apply Hk. exact Ho.
Qed.

Lemma tw_glob_bind {B} (w : World) pattern (k : list string -> M G B) full :
  traces_within (k (glob_result w pattern)) full ->
  traces_within (bind (glob w pattern) k) (GlobFiles pattern :: full).
Proof.
  intros Hk. unfold glob.
  apply (tw_bind _ k [GlobFiles pattern] full).
  - apply (tw_emit_bind _ _ []). apply tw_ret.
  - intros a s Ha. unfold bind, emit, ret, outcome_of in Ha. simpl in Ha.
    injection Ha as <-. exact Hk.
Qed.

Lemma tw_parse (w : World) path :
  traces_within (parse w path : M G Element) [ParseXml path].
Proof.
  unfold parse. apply (tw_emit_bind _ _ []).
  destruct (file_xml w path); [apply tw_ret | apply tw_raise].
Qed.

Lemma tw_parse_bind {B} (w : World) path (k : Element -> M G B) full :
  (forall doc, file_xml w path = Some doc -> traces_within (k doc) full) ->
  traces_within (bind (parse w path) k) (ParseXml path :: full).
Proof.
  intros Hk. apply (tw_bind _ k [ParseXml path] full).
  - apply tw_parse.
  - intros doc [tr g] Hdoc. rewrite parse_run in Hdoc.
    unfold outcome_of in Hdoc. simpl in Hdoc.
    destruct (file_xml w path) as [doc' |]; [| discriminate].
    injection Hdoc as <-. apply Hk. reflexivity.
Qed.

Lemma tw_read_lines_bind {B} (w : World) path (k : list string -> M G B) full :
  (forall lines, file_lines w path = Some lines -> traces_within (k lines) full) ->
  traces_within (bind (read_lines w path) k) (OpenRead path :: full).
Proof.
  intros Hk. apply (tw_bind _ k [OpenRead path] full).
  - unfold read_lines. apply (tw_emit_bind _ _ []).
    destruct (file_lines w path); [apply tw_ret | apply tw_raise].
  - intros lines s Hl. unfold read_lines, bind, emit, ret, raise, outcome_of in Hl.
    simpl in Hl. destruct (file_lines w path) as [lines' |]; [| discriminate].
    injection Hl as <-. apply Hk. reflexivity.
Qed.

Lemma tw_for_each {X} (body : X -> M G unit) (calls : X -> list Effect) xs :
  (forall x, traces_within (body x) (calls x)) ->
  traces_within (for_each xs body) (flat_map calls xs).
Proof.
  intros Hbody. induction xs as [| x xs IH]; simpl.
  - apply tw_ret.
  - apply tw_seq; [apply Hbody | intros _; exact IH].
Qed.

Lemma flat_map_no_calls {X} (xs : list X) :
  flat_map (fun _ : X => @nil Effect) xs = [].
Proof. induction xs; simpl; auto. Qed.

Lemma flat_map_one_call {X} (call : X -> Effect) (xs : list X) :
  flat_map (fun x => [call x]) xs = map call xs.
Proof. induction xs; simpl; f_equal; auto. Qed.

Lemma tw_for_each_silent {X} (body : X -> M G unit) xs :
  (forall x, traces_within (body x) []) ->
  traces_within (for_each xs body) [].
Proof.
  intros Hbody. eapply tw_eq; [apply tw_for_each; exact Hbody |].
  apply flat_map_no_calls.
Qed.

Lemma tw_show_cells cells :
  traces_within (Scripts.show_cells cells : M G unit) (Scripts.shown cells).
Proof.
  unfold Scripts.show_cells, Scripts.shown.
  eapply tw_eq; [apply tw_for_each; intros x; apply tw_emit |].
  apply flat_map_one_call.
Qed.

Lemma tw_get_author (metadata : Element) :
  traces_within (Metadata.get_author metadata : M G (option string)) [].
Proof.
  intros s. exists []. rewrite get_author_run. simpl. rewrite app_nil_r. auto.
Qed.

Lemma tw_get_date (metadata : Element) :
  traces_within (Metadata.get_date metadata : M G (option string)) [].
Proof.
  intros s. exists []. rewrite get_date_run. simpl. rewrite app_nil_r. auto.
Qed.

End Traces.

Lemma tw_on_fst {G1 G2 A} (m : M G1 A) full :
  traces_within m full -> traces_within (on_fst m : M (G1 * G2) A) full.
Proof.
  intros H [tr [g1 g2]]. destruct (H (tr, g1)) as (done & Ht & Hp & Hok).
  exists done. unfold on_fst, trace_of, outcome_of in *. simpl in *.
  destruct (m (tr, g1)) as [[tr' g1'] o]. simpl in *. auto.
Qed.

Lemma tw_on_snd {G1 G2 A} (m : M G2 A) full :
  traces_within m full -> traces_within (on_snd m : M (G1 * G2) A) full.
Proof.
  intros H [tr [g1 g2]]. destruct (H (tr, g2)) as (done & Ht & Hp & Hok).
  exists done. unfold on_snd, trace_of, outcome_of in *. simpl in *.
  destruct (m (tr, g2)) as [[tr' g2'] o]. simpl in *. auto.
Qed.

Lemma get_sentences_trace lower (w : World) filename tr g :
  trace_of (Word2Vec.get_sentences lower w filename (tr, g))
  = tr ++ [ParseXml filename].
Proof.
  rewrite get_sentences_unfold.
  destruct (file_xml w filename) as [xml |]; [| reflexivity].
  pose proof (get_sentences_loop_trace lower (iter_w_prev xml) []
                (tr ++ [ParseXml filename]) g) as Ht.
  destruct (Word2Vec.get_sentences_loop lower (iter_w_prev xml) [] _)
    as [[t1 g1] [last | e]]; exact Ht.
Qed.

Lemma tw_tokenize_loop lower attr (w : World) files :
  traces_within (Tokens.tokenize_loop lower attr w files) (map ParseXml files).
Proof.
  unfold Tokens.tokenize_loop.
  eapply tw_eq; [apply tw_for_each | apply flat_map_one_call].
  intros f. unfold Tokens.tokenize_file.
  apply tw_parse_bind. intros xml _.
  apply tw_lift_bind. intros words _. apply tw_modify.
Qed.

Lemma tw_In4_body (w : World) f :
  traces_within (Metadata.In4_body w f) [ParseXml f].
Proof.
  unfold Metadata.In4_body.
  apply tw_parse_bind. intros metadata _.
  apply tw_lift_bind. intros title _.
  apply (tw_seq _ _ [] []); [apply tw_get_author | intros author].
  apply (tw_seq _ _ [] []); [apply tw_get_date | intros date].
  apply (tw_seq _ _ [] []); [apply tw_modify | intros _; apply tw_modify].
Qed.

Lemma tw_In4_loop (w : World) files :
  traces_within (Metadata.In4_loop w files) (map ParseXml files).
Proof.
  unfold Metadata.In4_loop.
  eapply tw_eq; [apply tw_for_each | apply flat_map_one_call].
  intros f. apply tw_In4_body.
Qed.

Lemma tw_In22_loop standardize_str (w : World) files :
  traces_within (Metadata.In22_loop standardize_str w files) (map ParseXml files).
Proof.
  unfold Metadata.In22_loop.
  eapply tw_eq; [apply tw_for_each | apply flat_map_one_call].
  intros f. unfold Metadata.In22_body.
  apply tw_parse_bind. intros metadata _.
  apply (tw_seq _ _ [] []); [apply tw_get_date | intros date].
  apply tw_for_each_silent. intros p.
  apply tw_lift_bind. intros name _. apply tw_modify.
Qed.

Lemma admitted_calls filekeys files :
  flat_map (fun f => if bool_decide (Metadata.tcp_id_of f ∈ filekeys)
                     then [ParseXml f] else []) files
  = map ParseXml (Metadata.admitted filekeys files).
Proof.
  unfold Metadata.admitted. induction files as [| f files IH]; simpl.
  - reflexivity.
  - destruct (bool_decide (Metadata.tcp_id_of f ∈ filekeys)); simpl;
      rewrite IH; reflexivity.
Qed.

Lemma tw_In59_loop (w : World) filekeys files :
  traces_within (Metadata.In59_loop w filekeys files)
                (map ParseXml (Metadata.admitted filekeys files)).
Proof.
  unfold Metadata.In59_loop.
  eapply tw_eq; [apply tw_for_each | apply admitted_calls].
  intros f. unfold Metadata.In59_body.
  destruct (bool_decide (Metadata.tcp_id_of f ∈ filekeys)).
  - apply tw_In4_body.
  - apply tw_ret.
Qed.

Lemma try_cp_run (w : World) (command : string) tr g :
  Scripts.try_cp w command (tr, g) = ((tr ++ [Subprocess command], g), Ok tt).
Proof.
  unfold Scripts.try_cp, try_except, subprocess_call, bind, emit, lift, ret,
    bare_except.
  simpl. destruct (subprocess_result w command); reflexivity.
Qed.

Lemma tw_get_texts (w : World) :
  traces_within (Scripts.get_texts_py w) (Scripts.get_texts_calls w).
Proof.
  unfold Scripts.get_texts_py, Scripts.get_texts_calls.
  apply tw_read_lines_bind. intros list_of_ids ->.
  apply tw_emit_bind. apply tw_for_each. intros i.
  apply tw_emit_bind. apply tw_emit_bind. apply tw_exact. intros [tr g].
  rewrite try_cp_run. reflexivity.
Qed.

Lemma tw_ep_xml (w : World) :
  traces_within (Scripts.ep_xml_py w) Scripts.ep_xml_calls.
Proof.
  unfold Scripts.ep_xml_py, Scripts.ep_xml_calls.
  apply tw_parse_bind. intros paradiselost _.
  apply tw_seq; [apply tw_show_cells | intros _; apply tw_emit].
Qed.

Lemma tw_tf_idf lower (w : World) :
  traces_within (Scripts.tf_idf_py lower w) (Scripts.tf_idf_calls w).
Proof.
  unfold Scripts.tf_idf_py, Scripts.tf_idf_calls.
  apply tw_glob_bind.
  apply tw_seq; [apply tw_tokenize_loop | intros _; apply tw_emit].
Qed.

Lemma tw_word2vec lower (w : World) :
  traces_within (Scripts.word2vec_py lower w) (Scripts.word2vec_calls w).
Proof.
  unfold Scripts.word2vec_py, Scripts.word2vec_calls, Word2Vec.In3.
  apply (tw_seq _ _ (GlobFiles _ :: map ParseXml _) _);
    [| intros _; apply tw_show_cells].
  apply tw_glob_bind.
  eapply tw_eq; [apply tw_for_each | apply flat_map_one_call].
  intros f. apply tw_exact. intros [tr g]. apply get_sentences_trace.
Qed.

Lemma tw_similarity lower (w : World) :
  traces_within (Scripts.similarity_py lower w) (Scripts.similarity_calls w).
Proof.
  unfold Scripts.similarity_py, Scripts.similarity_calls. cbv zeta.
  apply tw_glob_bind. apply tw_emit_bind.
  apply tw_seq; [apply tw_on_fst, tw_tokenize_loop | intros _].
  apply tw_seq; [apply tw_show_cells | intros _].
  apply tw_glob_bind.
  apply tw_seq; [apply tw_on_snd, tw_In59_loop | intros _; apply tw_show_cells].
Qed.

Lemma tw_In3_prints (metadata : Element) :
  traces_within (Scripts.In3_prints metadata) [Display].
Proof.
  unfold Scripts.In3_prints.
  apply tw_lift_bind. intros _ _. apply tw_emit_bind.
  repeat (apply tw_lift_bind; intros _ _). apply tw_ret.
Qed.

Lemma tw_metadata standardize_str (w : World) :
  traces_within (Scripts.metadata_py standardize_str w) (Scripts.metadata_calls w).
Proof.
  unfold Scripts.metadata_py, Scripts.metadata_calls. cbv zeta.
  apply tw_emit_bind. apply tw_emit_bind.
  apply tw_lift_bind. intros metadata _.
  apply (tw_seq _ _ [Display] _); [apply tw_In3_prints | intros _].
  apply tw_glob_bind.
  apply tw_seq; [apply tw_In4_loop | intros _].
  apply tw_emit_bind. apply tw_read_lines_bind. intros lines _.
  apply tw_seq; [apply tw_In22_loop | intros _].
  apply tw_emit_bind.
  apply tw_seq; [apply tw_show_cells | intros _].
  apply tw_emit_bind. apply tw_emit.
Qed.

Lemma run_within {G A} (m : M G A) full (g : G) :
  traces_within m full ->
  trace_of (m ([], g)) `prefix_of` full
  /\ (is_ok (outcome_of (m ([], g))) = true -> trace_of (m ([], g)) = full).
Proof.
  intros H. destruct (H ([], g)) as (done & Ht & Hp & Hok).
  simpl in Ht. rewrite Ht. auto.
Qed.

Lemma Forall_run {G A} (P : Effect -> Prop) (m : M G A) full (g : G) :
  traces_within m full -> Forall P full -> Forall P (trace_of (m ([], g))).
Proof.
  intros H Hfull. destruct (run_within m full g H) as [[k Hk] _].
  rewrite Hk in Hfull. apply Forall_app in Hfull. tauto.
Qed.

Lemma Forall_parses (P : Effect -> Prop) (files : list string) :
  (forall f, P (ParseXml f)) -> Forall P (map ParseXml files).
Proof. intros H. induction files; simpl; constructor; auto. Qed.

Lemma Forall_shown (P : Effect -> Prop) (cells : list nat) :
  P Display -> Forall P (Scripts.shown cells).
Proof. intros H. induction cells; simpl; constructor; auto. Qed.

(** C2, as the code has it.  Every external call of every script reads
    files (a glob, a file opened by name, an XML file parsed) or shows
    output, with these exceptions: ep_xml.py writes one CSV file,
    metadata.py makes one HTTP GET request and writes one HTML file, and
    get_texts.py runs one [cp] subprocess per listed ID.  No script writes
    a PNG file. *)
Theorem external_calls_as_coded
    (lower standardize_str : string -> string) (w : World)
    (g1 : Tokens.Globals) (g2 : Metadata.Globals) :
  Forall (fun e => Scripts.reads_or_shows e = true)
         (trace_of (Scripts.tf_idf_py lower w ([], g1)))
  /\ Forall (fun e => Scripts.reads_or_shows e = true)
            (trace_of (Scripts.word2vec_py lower w ([], g1)))
  /\ Forall (fun e => Scripts.reads_or_shows e = true)
            (trace_of (Scripts.similarity_py lower w ([], (g1, g2))))
  /\ Forall (fun e => Scripts.reads_or_shows e = true
                      \/ e = WriteFile Csv "pl_noun_counts_by_book.csv")
            (trace_of (Scripts.ep_xml_py w ([], tt)))
  /\ Forall (fun e => Scripts.reads_or_shows e = true
                      \/ e = HttpGet Scripts.base_url
                      \/ e = WriteFile Html "subgraph.html")
            (trace_of (Scripts.metadata_py standardize_str w ([], g2)))
  /\ Forall (fun e => Scripts.reads_or_shows e = true
                      \/ exists i, e = Subprocess (Scripts.command_of i))
            (trace_of (Scripts.get_texts_py w ([], tt))).
Proof.
  split; [| split; [| split; [| split; [| split]]]].
  - apply (Forall_run _ _ _ _ (tw_tf_idf lower w)).
    unfold Scripts.tf_idf_calls. constructor; [reflexivity |].
    apply Forall_app. split; [apply Forall_parses; reflexivity |].
    repeat constructor.
  - apply (Forall_run _ _ _ _ (tw_word2vec lower w)).
    unfold Scripts.word2vec_calls. constructor; [reflexivity |].
    apply Forall_app. split; [apply Forall_parses | apply Forall_shown]; reflexivity.
  - apply (Forall_run _ _ _ _ (tw_similarity lower w)).
    unfold Scripts.similarity_calls. cbv zeta.
    do 2 (constructor; [reflexivity |]).
    apply Forall_app. split; [apply Forall_parses; reflexivity |].
    apply Forall_app. split; [apply Forall_shown; reflexivity |].
    constructor; [reflexivity |].
    apply Forall_app. split; [apply Forall_parses | apply Forall_shown]; reflexivity.
  - apply (Forall_run _ _ _ _ (tw_ep_xml w)).
    unfold Scripts.ep_xml_calls. constructor; [left; reflexivity |].
    apply Forall_app. split; [apply Forall_shown; left; reflexivity |].
    constructor; [right; reflexivity | constructor].
  - apply (Forall_run _ _ _ _ (tw_metadata standardize_str w)).
    unfold Scripts.metadata_calls. cbv zeta.
    constructor; [right; left; reflexivity |].
    do 3 (constructor; [left; reflexivity |]).
    apply Forall_app. split; [apply Forall_parses; left; reflexivity |].
    do 2 (constructor; [left; reflexivity |]).
    apply Forall_app. split; [apply Forall_parses; left; reflexivity |].
    constructor; [left; reflexivity |].
    apply Forall_app. split; [apply Forall_shown; left; reflexivity |].
    constructor; [right; right; reflexivity |].
    constructor; [left; reflexivity | constructor].
  - apply (Forall_run _ _ _ _ (tw_get_texts w)).
    unfold Scripts.get_texts_calls. constructor; [left; reflexivity |].
    destruct (file_lines w "texts.csv") as [list_of_ids |]; [| constructor].
    constructor; [left; reflexivity |].
    induction (removelast list_of_ids) as [| i ids IH]; simpl.
    + constructor.
    + do 2 (constructor; [left; reflexivity |]).
      constructor; [right; exists i; reflexivity | exact IH].
Qed.

(** C2 as stated fails.  A run of metadata.py starts with an HTTP GET
    request and ends by writing subgraph.html; a run of get_texts.py on a
    texts.csv with two IDs invokes [cp] in a subprocess for each.  None of
    the three is a file read or a CSV or PNG write. *)
Lemma other_external_calls_occur :
  In (HttpGet Scripts.base_url)
     (trace_of (Scripts.metadata_py (fun s => s) Examples.metadata_world
                  ([], Metadata.no_globals)))
  /\ Scripts.read_or_csv_png (HttpGet Scripts.base_url) = false
  /\ In (WriteFile Html "subgraph.html")
        (trace_of (Scripts.metadata_py (fun s => s) Examples.metadata_world
                     ([], Metadata.no_globals)))
  /\ Scripts.read_or_csv_png (WriteFile Html "subgraph.html") = false
  /\ In (Subprocess "cp /home/data/phase1texts/texts/A53/A53049.xml .")
        (trace_of (Scripts.get_texts_py Examples.texts_world ([], tt)))
  /\ Scripts.read_or_csv_png
       (Subprocess "cp /home/data/phase1texts/texts/A53/A53049.xml .") = false
  /\ ~ Forall (fun e => Scripts.read_or_csv_png e = true)
         (trace_of (Scripts.metadata_py (fun s => s) Examples.metadata_world
                      ([], Metadata.no_globals))).
Proof.
  split; [vm_compute; auto |].
  split; [reflexivity |].
  split; [vm_compute; auto 20 |].
  split; [reflexivity |].
  split; [vm_compute; auto 10 |].
  split; [reflexivity |].
  intros H. vm_compute in H. inversion H as [| ? ? Hhead _]. discriminate Hhead.
Qed.

(** ** How often a file is parsed *)

Lemma parses_app f tr1 tr2 :
  Scripts.parses f (tr1 ++ tr2) = Scripts.parses f tr1 + Scripts.parses f tr2.
Proof.
  unfold Scripts.parses. rewrite List.filter_app, length_app. reflexivity.
Qed.

Lemma parses_cons f e tr :
  Scripts.parses f (e :: tr)
  = (if Scripts.is_parse_of f e then 1 else 0) + Scripts.parses f tr.
Proof.
  unfold Scripts.parses. simpl. destruct (Scripts.is_parse_of f e); reflexivity.
Qed.

Lemma parses_files f files :
  Scripts.parses f (map ParseXml files) = count_occ string_dec files f.
Proof.
  induction files as [| f' files IH]; [reflexivity |].
  simpl map. rewrite parses_cons, IH. simpl.
  destruct (string_dec f' f) as [-> | Hne].
  - rewrite String.eqb_refl. reflexivity.
  - apply String.eqb_neq in Hne. rewrite Hne. reflexivity.
Qed.

Lemma parses_shown f cells : Scripts.parses f (Scripts.shown cells) = 0.
Proof. induction cells; [reflexivity | exact IHcells]. Qed.

Lemma parses_nil f : Scripts.parses f [] = 0.
Proof. reflexivity. Qed.

Create Rewrite HintDb parses.
#[local] Hint Rewrite parses_cons parses_app parses_files parses_shown parses_nil
  : parses.

Ltac count_parses :=
  autorewrite with parses; cbn [Scripts.is_parse_of]; try lia.

Lemma parses_prefix f tr full :
  tr `prefix_of` full -> Scripts.parses f tr <= Scripts.parses f full.
Proof. intros [k ->]. rewrite parses_app. lia. Qed.

Lemma parses_run {G A} (m : M G A) full (g : G) f :
  traces_within m full ->
  Scripts.parses f (trace_of (m ([], g))) <= Scripts.parses f full
  /\ (is_ok (outcome_of (m ([], g))) = true ->
      Scripts.parses f (trace_of (m ([], g))) = Scripts.parses f full).
Proof.
  intros H. destruct (run_within m full g H) as [Hp Hok]. split.
  - apply parses_prefix. exact Hp.
  - intros Hrun. rewrite (Hok Hrun). reflexivity.
Qed.

Lemma parses_get_texts f (w : World) :
  Scripts.parses f (Scripts.get_texts_calls w) = 0.
Proof.
  unfold Scripts.get_texts_calls. rewrite parses_cons. simpl.
  destruct (file_lines w "texts.csv") as [ids |]; [| reflexivity].
  rewrite parses_cons. simpl.
  induction (removelast ids) as [| i l IH]; [reflexivity |].
  simpl. rewrite !parses_cons. simpl. exact IH.
Qed.

(** C6, as the code has it.  A loop over a list of files parses each listed
    path once.  tf_idf.py and word2vec.py have one such loop, so a run
    parses a file as often as the glob lists it; similarity.py has one loop
    over the texts and one over the admitted metadata files; ep_xml.py parses
    its one file once and get_texts.py parses nothing.  metadata.py runs two
    loops over the same list: a run parses each file at most twice as often
    as the glob lists it, and exactly that often when the run reaches its
    end. *)
Theorem files_parsed_per_run
    (lower standardize_str : string -> string) (w : World) (f : string)
    (g1 : Tokens.Globals) (g2 : Metadata.Globals) :
  Scripts.parses f (trace_of (Scripts.tf_idf_py lower w ([], g1)))
    <= count_occ string_dec (glob_result w "1666_texts/*.xml") f
  /\ Scripts.parses f (trace_of (Scripts.word2vec_py lower w ([], g1)))
       <= count_occ string_dec (glob_result w "1666_texts_full/*.xml") f
  /\ Scripts.parses f (trace_of (Scripts.similarity_py lower w ([], (g1, g2))))
       <= count_occ string_dec (glob_result w "1666_texts/*.xml") f
          + count_occ string_dec
              (Metadata.admitted
                 (map Metadata.filekey_of (glob_result w "1666_texts/*.xml"))
                 (glob_result w "../../epmetadata/header/*.xml")) f
  /\ Scripts.parses f (trace_of (Scripts.ep_xml_py w ([], tt))) <= 1
  /\ Scripts.parses f (trace_of (Scripts.get_texts_py w ([], tt))) = 0
  /\ Scripts.parses f (trace_of (Scripts.metadata_py standardize_str w ([], g2)))
       <= 2 * count_occ string_dec (glob_result w "../../epmetadata/header/*.xml") f
  /\ (is_ok (outcome_of (Scripts.metadata_py standardize_str w ([], g2))) = true ->
      Scripts.parses f (trace_of (Scripts.metadata_py standardize_str w ([], g2)))
      = 2 * count_occ string_dec (glob_result w "../../epmetadata/header/*.xml") f).
Proof.
  assert (Hmeta : Scripts.parses f (Scripts.metadata_calls w)
                  = 2 * count_occ string_dec
                          (glob_result w "../../epmetadata/header/*.xml") f).
  { unfold Scripts.metadata_calls. cbv zeta. count_parses. }
  split; [| split; [| split; [| split; [| split; [| split]]]]].
  - etransitivity; [apply (parses_run _ _ _ f (tw_tf_idf lower w)) |].
    unfold Scripts.tf_idf_calls. count_parses.
  - etransitivity; [apply (parses_run _ _ _ f (tw_word2vec lower w)) |].
    unfold Scripts.word2vec_calls. count_parses.
  - etransitivity; [apply (parses_run _ _ _ f (tw_similarity lower w)) |].
    unfold Scripts.similarity_calls. cbv zeta. count_parses.
  - etransitivity; [apply (parses_run _ _ _ f (tw_ep_xml w)) |].
    unfold Scripts.ep_xml_calls. count_parses.
    destruct (String.eqb "A50919.xml" f); lia.
  - pose proof (parses_run _ _ tt f (tw_get_texts w)) as [Hle _].
    rewrite parses_get_texts in Hle. lia.
  - rewrite <- Hmeta. apply (parses_run _ _ _ f (tw_metadata standardize_str w)).
  - intros Hok. rewrite <- Hmeta.
    apply (parses_run _ _ _ f (tw_metadata standardize_str w)). exact Hok.
Qed.

Lemma files_parsed_per_run_witness :
  Scripts.parses Examples.header_1
    (trace_of (Scripts.metadata_py (fun s => s) Examples.metadata_world
                 ([], Metadata.no_globals)))
  = 2.
Proof.
  destruct (files_parsed_per_run (fun s => s) (fun s => s) Examples.metadata_world
              Examples.header_1 [] Metadata.no_globals)
    as (_ & _ & _ & _ & _ & _ & Hexact).
  rewrite Hexact; reflexivity.
Defined.

(** C6 as stated fails.  In a run of metadata.py over two header files,
    which reaches its end, each of the two files is parsed twice: once by
    the loop of cell In[4] and once by the loop of cell In[22]. *)
Lemma metadata_parses_twice :
  outcome_of (Scripts.metadata_py (fun s => s) Examples.metadata_world
                ([], Metadata.no_globals)) = Ok tt
  /\ Scripts.parses Examples.header_1
       (trace_of (Scripts.metadata_py (fun s => s) Examples.metadata_world
                    ([], Metadata.no_globals))) = 2
  /\ Scripts.parses Examples.header_2
       (trace_of (Scripts.metadata_py (fun s => s) Examples.metadata_world
                    ([], Metadata.no_globals))) = 2
  /\ ~ (forall f,
          Scripts.parses f
            (trace_of (Scripts.metadata_py (fun s => s) Examples.metadata_world
                         ([], Metadata.no_globals))) <= 1).
Proof.
  split; [vm_compute; reflexivity |].
  split; [vm_compute; reflexivity |].
  split; [vm_compute; reflexivity |].
  intros H. specialize (H Examples.header_1). vm_compute in H. lia.
Qed.

(** ** The try/except blocks *)

(** C1, as the code has it.  The repository has six try/except blocks.  The
    five in the notebooks (three in metadata.py, two in similarity.py) guard
    a lookup on the result of [find], catch AttributeError and assign [None]:
    the author is the element's text, or [None] when there is no author
    element; the date is the [when] attribute, or [None] when there is no
    date element; neither ever raises.  The sixth, in get_texts.py, guards a
    subprocess call with a bare [except] and [pass]: whatever the call does,
    the block ends normally and substitutes nothing. *)
Theorem try_blocks_as_coded :
  forall (w : World) (metadata : Element) (command : string)
         (s : list Effect * Metadata.Globals) (tr : list Effect),
    List.filter (fun b => negb (Scripts.guards_xml_lookup b)) Scripts.try_blocks
    = [Scripts.mkTry Scripts.GetTextsPy 16 Scripts.SubprocessCall
         Scripts.ExceptAll Scripts.Pass]
    /\ forallb (fun b => Scripts.substitutes_None b)
         (List.filter Scripts.guards_xml_lookup Scripts.try_blocks) = true
    /\ length (List.filter Scripts.guards_xml_lookup Scripts.try_blocks) = 5
    /\ Metadata.get_author metadata s
       = (s, Ok (match find_desc_desc "sourceDesc" "author" metadata with
                 | Some e => text e
                 | None => None
                 end))
    /\ Metadata.get_date metadata s
       = (s, Ok (match find_desc_desc "sourceDesc" "date" metadata with
                 | Some e => attrib e !! "when"
                 | None => None
                 end))
    /\ Scripts.try_cp w command (tr, tt) = ((tr ++ [Subprocess command], tt), Ok tt).
Proof.
  intros w metadata command s tr.
  split; [reflexivity |]. split; [reflexivity |]. split; [reflexivity |].
  split; [apply get_author_run |].
  split; [| apply try_cp_run].
  rewrite get_date_run. unfold Metadata.row_of. simpl.
  destruct (find_desc_desc "sourceDesc" "date" metadata) as [e |]; [| reflexivity].
  unfold get_text. destruct (attrib e !! "when"); reflexivity.
Qed.

(** C1 as stated fails.  The try/except block at line 16 of get_texts.py
    guards [subprocess.call], no XML lookup, and its handler is [pass]:
    with a shell in which every call raises, the script still ends normally,
    having attempted the copy. *)
Lemma try_block_around_subprocess :
  In (Scripts.mkTry Scripts.GetTextsPy 16 Scripts.SubprocessCall
        Scripts.ExceptAll Scripts.Pass) Scripts.try_blocks
  /\ ~ Forall (fun b => Scripts.guards_xml_lookup b = true
                        /\ Scripts.substitutes_None b = true)
         Scripts.try_blocks
  /\ Scripts.get_texts_py Examples.failing_shell ([], tt)
     = (([OpenRead "texts.csv"; Display; Display; Display;
          Subprocess "cp /home/data/phase1texts/texts/A53/A53049.xml ."], tt),
        Ok tt).
Proof.
  split; [left; reflexivity |].
  split; [| vm_compute; reflexivity].
  intros H. inversion H as [| ? ? [Hxml _] _]. discriminate Hxml.
Qed.

(* ===================================================================== *)
(** * Further properties of the scripts                                  *)
(* ===================================================================== *)

(** ** File names: TCP IDs, file keys and row labels *)

Lemma split_not_nil sep s : Metadata.split sep s <> [].
Proof.
  destruct s as [| c s']; simpl; [discriminate |].
  destruct (Ascii.eqb c sep); [discriminate |].
  destruct (Metadata.split sep s'); discriminate.
Qed.

Lemma split_no_sep sep s :
  Paths.has_char sep s = false -> Metadata.split sep s = [s].
Proof.
  induction s as [| c s' IH]; simpl; [reflexivity |].
  intros H. apply orb_false_elim in H as [Hc Hs].
  rewrite Hc, (IH Hs). reflexivity.
Qed.

Lemma split_app_sep sep a b :
  Metadata.split sep (a +:+ String sep b)
  = Metadata.split sep a ++ Metadata.split sep b.
Proof.
  induction a as [| c a' IH]; simpl.
  - rewrite Ascii.eqb_refl. reflexivity.
  - destruct (Ascii.eqb c sep); rewrite IH; [reflexivity |].
    pose proof (split_not_nil sep a') as Hne.
    destruct (Metadata.split sep a'); [congruence | reflexivity].
Qed.

Lemma last_app_not_nil {A} (l1 l2 : list A) d :
  l2 <> [] -> List.last (l1 ++ l2) d = List.last l2 d.
Proof.
  intros Hne. induction l1 as [| x l1 IH]; [reflexivity |].
  simpl app. destruct (l1 ++ l2) eqn:Happ.
  - apply app_eq_nil in Happ as [_ ->]. congruence.
  - exact IH.
Qed.

Lemma last_split_dir sep dir name :
  Paths.has_char sep name = false ->
  List.last (Metadata.split sep (dir +:+ String sep name)) "" = name.
Proof.
  intros Hname. rewrite split_app_sep, last_app_not_nil by apply split_not_nil.
  rewrite (split_no_sep sep name Hname). reflexivity.
Qed.

Lemma hd_split_stem sep stem rest :
  Paths.has_char sep stem = false ->
  hd "" (Metadata.split sep (stem +:+ String sep rest)) = stem.
Proof.
  intros Hstem. rewrite split_app_sep, (split_no_sep sep stem Hstem). reflexivity.
Qed.

Lemma has_char_app c a b :
  Paths.has_char c (a +:+ b) = Paths.has_char c a || Paths.has_char c b.
Proof.
  induction a as [| c' a' IH]; simpl; [reflexivity |].
  rewrite IH, orb_assoc. reflexivity.
Qed.

Lemma tcp_id_of_header (dir id rest : string) :
  Paths.has_char "/" id = false ->
  Paths.has_char "_" id = false ->
  Paths.has_char "/" rest = false ->
  Metadata.tcp_id_of (dir +:+ String "/" (id +:+ String "_" rest)) = id.
Proof.
  intros Hid_slash Hid_under Hrest.
  unfold Metadata.tcp_id_of. rewrite last_split_dir.
  - apply hd_split_stem. exact Hid_under.
  - rewrite has_char_app. simpl. rewrite Hid_slash, Hrest. reflexivity.
Qed.

(** X1.  The TCP ID of a header path is recovered whatever the directory:
    for a path [dir/ID_rest] whose [ID] holds neither "/" nor "_" and whose
    [rest] holds no "/", [tcp_id_of] gives back [ID]. *)
Theorem tcp_id_of_header_path
    (dir id rest : string)
    (Hid_slash : Paths.has_char "/" id = false)
    (Hid_under : Paths.has_char "_" id = false)
    (Hrest : Paths.has_char "/" rest = false) :
  Metadata.tcp_id_of (dir +:+ String "/" (id +:+ String "_" rest)) = id.
Proof. apply tcp_id_of_header; assumption. Qed.

Lemma tcp_id_of_header_path_witness :
  Metadata.tcp_id_of "../../epmetadata/header/A53049_header.xml" = "A53049".
Proof.
  apply (tcp_id_of_header_path "../../epmetadata/header" "A53049" "header.xml");
    reflexivity.
Defined.

(** X2.  The row labels of tf_idf.py and the file keys of similarity.py
    agree on the paths the glob ["1666_texts/*.xml"] returns: for a path
    [dir/name] with no "/" inside [dir] or [name], the label
    [f.split("/")[1].split(".")[0]] is the key
    [f.split('/')[-1].split('.')[0]].  On a path without "/" the label
    raises IndexError while the key is still defined. *)
Theorem label_is_filekey
    (dir name bare : string)
    (Hdir : Paths.has_char "/" dir = false)
    (Hname : Paths.has_char "/" name = false)
    (Hbare : Paths.has_char "/" bare = false) :
  Paths.label_of (dir +:+ String "/" name)
  = Ok (Metadata.filekey_of (dir +:+ String "/" name))
  /\ Metadata.filekey_of (dir +:+ String "/" name)
     = hd "" (Metadata.split "." name)
  /\ Paths.label_of bare = Raise OtherError
  /\ Metadata.filekey_of bare = hd "" (Metadata.split "." bare).
Proof.
  unfold Paths.label_of, Metadata.filekey_of.
  rewrite last_split_dir by exact Hname.
  rewrite split_app_sep, (split_no_sep "/" dir Hdir), (split_no_sep "/" name Hname).
  rewrite (split_no_sep "/" bare Hbare). simpl. auto.
Qed.

Lemma label_is_filekey_witness :
  Paths.label_of "1666_texts/A53049.xml" = Ok "A53049"
  /\ Paths.label_of "A53049.xml" = Raise OtherError.
Proof.
  destruct (label_is_filekey "1666_texts" "A53049.xml" "A53049.xml"
              eq_refl eq_refl eq_refl) as (Hlabel & _ & Hbare & _).
  split; [| exact Hbare].
  etransitivity; [exact Hlabel | reflexivity].
Defined.

(** ** get_texts.py: the list of IDs and the copies *)

Lemma string_app_cons (x : ascii) (a b : string) :
  String x a +:+ b = String x (a +:+ b).
Proof. reflexivity. Qed.

Lemma string_app_nil_l (a : string) : "" +:+ a = a.
Proof. reflexivity. Qed.

Lemma string_app_nil_r (a : string) : a +:+ "" = a.
Proof.
  induction a as [| x a IH]; [reflexivity |].
  rewrite string_app_cons, IH. reflexivity.
Qed.

Lemma string_app_assoc (a b c : string) : (a +:+ b) +:+ c = a +:+ (b +:+ c).
Proof.
  induction a as [| x a IH]; [reflexivity |].
  rewrite !string_app_cons, IH. reflexivity.
Qed.

Lemma one_line_parts entry :
  Paths.one_line entry = true ->
  Paths.has_char "010" entry = false /\ Paths.has_char "013" entry = false.
Proof.
  unfold Paths.one_line. intros H. apply andb_prop in H as [Hlf Hcr].
  apply negb_true_iff in Hlf, Hcr. auto.
Qed.

Lemma split_unlines entries last_line :
  Forall (fun entry => Paths.one_line entry = true) entries ->
  Paths.one_line last_line = true ->
  Metadata.split "010" (Paths.unlines entries +:+ last_line)
  = entries ++ [last_line].
Proof.
  intros Hentries Hlast. apply one_line_parts in Hlast as [Hlast _].
  induction Hentries as [| entry rest Hentry _ IH]; simpl.
  - apply split_no_sep. exact Hlast.
  - apply one_line_parts in Hentry as [Hentry _].
    rewrite string_app_assoc, string_app_cons.
    rewrite split_app_sep, (split_no_sep _ entry Hentry), IH. reflexivity.
Qed.

Lemma universal_newlines_app (a b : string) :
  Paths.has_char "013" a = false ->
  Paths.universal_newlines (a +:+ b) = a +:+ Paths.universal_newlines b.
Proof.
  induction a as [| c a IH]; [reflexivity |].
  intros H. simpl in H. apply orb_false_elim in H as [Hc Ha].
  rewrite !string_app_cons. simpl Paths.universal_newlines at 1.
  rewrite Hc, (IH Ha). reflexivity.
Qed.

Lemma universal_newlines_plain (a : string) :
  Paths.has_char "013" a = false -> Paths.universal_newlines a = a.
Proof.
  intros H. rewrite <- (string_app_nil_r a) at 1.
  rewrite (universal_newlines_app a "" H). apply string_app_nil_r.
Qed.

(** What [read()] returns for a file whose lines end in "\n" or in
    "\r\n". *)
Lemma read_unlines entries last_line :
  Forall (fun entry => Paths.one_line entry = true) entries ->
  Paths.one_line last_line = true ->
  Paths.universal_newlines (Paths.unlines entries +:+ last_line)
  = Paths.unlines entries +:+ last_line
  /\ Paths.universal_newlines
       (Paths.unlines_with (String "013" (String "010" "")) entries +:+ last_line)
     = Paths.unlines entries +:+ last_line.
Proof.
  intros Hentries Hlast. apply one_line_parts in Hlast as [_ Hlast].
  induction Hentries as [| entry rest Hentry _ [IHlf IHcrlf]]; simpl.
  - split; apply universal_newlines_plain; exact Hlast.
  - apply one_line_parts in Hentry as [_ Hentry].
    rewrite !string_app_assoc, !string_app_cons.
    rewrite !(universal_newlines_app entry _ Hentry). split.
    + f_equal. simpl Paths.universal_newlines at 1. rewrite IHlf. reflexivity.
    + f_equal. rewrite string_app_nil_l.
      simpl Paths.universal_newlines at 1. rewrite IHcrlf. reflexivity.
Qed.

(** X3.  The loop of get_texts.py runs over [list_of_ids[:-1]].  For a
    texts.csv with one ID per line, each line ended by a newline ("\n" or
    "\r\n", which text-mode [read()] turns into "\n"), that is exactly
    the IDs of the file, in order, without any line ending character;
    whatever follows the last newline is left out, so an ID on a last line
    without a newline is not copied. *)
Theorem ids_of_texts_csv
    (ids : list string) (last_line : string)
    (Hids : Forall (fun id => Paths.one_line id = true) ids)
    (Hlast : Paths.one_line last_line = true) :
  removelast (Paths.lines_of (Paths.unlines ids)) = ids
  /\ removelast (Paths.lines_of
                   (Paths.unlines_with (String "013" (String "010" "")) ids))
     = ids
  /\ removelast (Paths.lines_of (Paths.unlines ids +:+ last_line)) = ids
  /\ removelast (Paths.lines_of
                   (Paths.unlines_with (String "013" (String "010" "")) ids
                    +:+ last_line))
     = ids.
Proof.
  assert (Hgen : forall l, Paths.one_line l = true ->
            removelast (Paths.lines_of (Paths.unlines ids +:+ l)) = ids
            /\ removelast (Paths.lines_of
                  (Paths.unlines_with (String "013" (String "010" "")) ids +:+ l))
               = ids).
  { intros l Hl. unfold Paths.lines_of.
    destruct (read_unlines ids l Hids Hl) as [-> ->].
    rewrite (split_unlines ids l Hids Hl).
    split; apply removelast_last. }
  destruct (Hgen "" eq_refl) as [Hlf Hcrlf].
  rewrite !string_app_nil_r in Hlf, Hcrlf.
  destruct (Hgen last_line Hlast) as [Hlf' Hcrlf']. auto.
Qed.

Lemma ids_of_texts_csv_witness :
  removelast (Paths.lines_of (Paths.unlines ["A53049"; "A29017"]))
  = ["A53049"; "A29017"]
  /\ removelast (Paths.lines_of
                   (Paths.unlines_with (String "013" (String "010" ""))
                      ["A53049"; "A29017"]))
     = ["A53049"; "A29017"]
  /\ removelast (Paths.lines_of (Paths.unlines ["A53049"] +:+ "A29017"))
     = ["A53049"].
Proof.
  destruct (ids_of_texts_csv ["A53049"; "A29017"] "")
    as (Hlf & Hcrlf & _); [repeat constructor | reflexivity |].
  destruct (ids_of_texts_csv ["A53049"] "A29017")
    as (_ & _ & Hlast & _); [repeat constructor | reflexivity |].
  auto.
Defined.

Lemma copies_run (w : World) (ids : list string) tr :
  for_each ids (fun i => emit Display ;;; emit Display ;;;
                         Scripts.try_cp w (Scripts.command_of i)) (tr, tt)
  = ((tr ++ flat_map (fun i => [Display; Display;
                                Subprocess (Scripts.command_of i)]) ids, tt),
     Ok tt).
Proof.
  revert tr. induction ids as [| i ids IH]; intros tr.
  - simpl. unfold ret. rewrite app_nil_r. reflexivity.
  - rewrite for_each_cons. unfold bind at 1 2, emit at 1 2. simpl fst. simpl snd.
    rewrite try_cp_run, IH. simpl. rewrite <- !app_assoc. reflexivity.
Qed.

(** X4.  Once texts.csv opens, get_texts.py ends normally whatever the
    copies do: it invokes [cp] exactly once for every listed line but the
    last, in order, each after two prints, and no failure of a copy stops
    it or skips a later one.  If texts.csv does not open, it stops there
    and invokes nothing. *)
Theorem get_texts_copies_every_id
    (w : World) (list_of_ids : list string)
    (Hopen : file_lines w "texts.csv" = Some list_of_ids) :
  Scripts.get_texts_py w ([], tt)
  = ((OpenRead "texts.csv" :: Display
        :: flat_map (fun i => [Display; Display; Subprocess (Scripts.command_of i)])
                    (removelast list_of_ids), tt),
     Ok tt)
  /\ (forall w' : World,
        file_lines w' "texts.csv" = None ->
        Scripts.get_texts_py w' ([], tt)
        = (([OpenRead "texts.csv"], tt), Raise OtherError)).
Proof.
  split.
  - unfold Scripts.get_texts_py, read_lines. unfold bind at 1 2, emit at 1.
    simpl fst. simpl snd. rewrite Hopen. unfold ret at 1.
    unfold bind at 1, emit at 1. simpl fst. simpl snd.
    rewrite copies_run. reflexivity.
  - intros w' Hnone. unfold Scripts.get_texts_py, read_lines.
    unfold bind, emit, raise. simpl. rewrite Hnone. reflexivity.
Qed.

Lemma get_texts_copies_every_id_witness :
  Scripts.get_texts_py Examples.failing_shell ([], tt)
  = (([OpenRead "texts.csv"; Display; Display; Display;
       Subprocess "cp /home/data/phase1texts/texts/A53/A53049.xml ."], tt),
     Ok tt).
Proof.
  destruct (get_texts_copies_every_id Examples.failing_shell ["A53049"; ""] eq_refl)
    as [Hrun _].
  rewrite Hrun. reflexivity.
Defined.

(** ** The metadata loops: where they stop, and what they keep *)

Lemma In4_loop_stops (w : World) (files : list string) :
  forall tr g,
    exists done rest,
      files = done ++ rest
      /\ Forall (Metadata.titled w) done
      /\ globals_of (Metadata.In4_loop w files (tr, g)) = Metadata.with_rows w done g
      /\ match outcome_of (Metadata.In4_loop w files (tr, g)) with
         | Ok _ => rest = []
         | Raise e =>
             exists bad rest',
               rest = bad :: rest'
               /\ ((file_xml w bad = None /\ e = ParseError)
                   \/ (exists metadata, file_xml w bad = Some metadata
                                        /\ Metadata.has_title metadata = false
                                        /\ e = AttributeError))
         end.
Proof.
  unfold Metadata.In4_loop.
  induction files as [| f files IH]; intros tr g.
  - exists [], []. simpl. rewrite with_rows_nil. auto.
  - rewrite for_each_cons, In4_body_run.
    destruct (file_xml w f) as [metadata |] eqn:Hf.
    + destruct (Metadata.has_title metadata) eqn:Ht.
      * destruct (IH (tr ++ [ParseXml f])
                    (Metadata.append_index (Metadata.tcp_id_of f)
                       (Metadata.append_row (Metadata.row_of metadata) g)))
          as (done & rest & Hfiles & Hdone & Hg & Hout).
        exists (f :: done), rest. split; [simpl; congruence |].
        split; [constructor; [exists metadata; auto | exact Hdone] |].
        split; [rewrite Hg; symmetry; apply with_rows_cons; exact Hf | exact Hout].
      * exists [], (f :: files). simpl. rewrite with_rows_nil.
        repeat split; auto. exists f, files. split; [reflexivity |].
        right. exists metadata. auto.
    + exists [], (f :: files). simpl. rewrite with_rows_nil.
      repeat split; auto. exists f, files. split; [reflexivity |]. left. auto.
Qed.

(** X5.  The loop of metadata.py stops at the first file that does not
    parse (with the parser's error) or has no title element (with
    AttributeError), and not before: every file it has passed parses and
    has a title.  However it ends, [all_data] holds the rows of exactly the
    files before that point and [index] their TCP IDs, so the two lists
    passed to [pd.DataFrame] always match in length; the edge list is
    untouched. *)
Theorem metadata_loop_keeps_rows_and_index_aligned
    (w : World) (files : list string) (tr : list Effect) (g : Metadata.Globals)
    (Haligned : length (Metadata.all_data g) = length (Metadata.index g)) :
  let r := Metadata.In4_loop w files (tr, g) in
  length (Metadata.all_data (globals_of r)) = length (Metadata.index (globals_of r))
  /\ Metadata.edgelist (globals_of r) = Metadata.edgelist g
  /\ exists done rest,
       files = done ++ rest
       /\ Forall (Metadata.titled w) done
       /\ Metadata.all_data (globals_of r)
          = Metadata.all_data g ++ Metadata.rows_of w done
       /\ Metadata.index (globals_of r)
          = Metadata.index g ++ map Metadata.tcp_id_of done
       /\ length (Metadata.all_data (globals_of r))
          = length (Metadata.all_data g) + length done
       /\ match outcome_of r with
          | Ok _ => rest = []
          | Raise e =>
              exists bad rest',
                rest = bad :: rest'
                /\ ((file_xml w bad = None /\ e = ParseError)
                    \/ (exists metadata, file_xml w bad = Some metadata
                                         /\ Metadata.has_title metadata = false
                                         /\ e = AttributeError))
          end.
Proof.
  cbv zeta.
  destruct (In4_loop_stops w files tr g) as (done & rest & Hfiles & Hdone & Hg & Hout).
  rewrite Hg. unfold Metadata.with_rows. simpl.
  rewrite !length_app, length_map, (rows_of_length w done Hdone).
  split; [lia |]. split; [reflexivity |].
  exists done, rest. repeat (split; [first [assumption | reflexivity] |]).
  exact Hout.
Qed.

Lemma metadata_loop_keeps_rows_and_index_aligned_witness :
  Metadata.index
    (globals_of (Metadata.In4_loop Examples.header_world
                   [Examples.header_1; Examples.header_3; Examples.header_2]
                   ([], Metadata.no_globals)))
  = ["A00001"]
  /\ length (Metadata.all_data
               (globals_of (Metadata.In4_loop Examples.header_world
                              [Examples.header_1; Examples.header_3; Examples.header_2]
                              ([], Metadata.no_globals))))
     = 1.
Proof.
  destruct (metadata_loop_keeps_rows_and_index_aligned Examples.header_world
              [Examples.header_1; Examples.header_3; Examples.header_2]
              [] Metadata.no_globals eq_refl) as (Hlen & _ & _).
  split; [reflexivity |].
  rewrite Hlen. reflexivity.
Defined.

Lemma In59_is_In4_on_admitted (w : World) (filekeys files : list string) :
  forall s,
    Metadata.In59_loop w filekeys files s
    = Metadata.In4_loop w (Metadata.admitted filekeys files) s.
Proof.
  unfold Metadata.In59_loop, Metadata.In4_loop, Metadata.admitted.
  induction files as [| f files IH]; intros [tr g]; [reflexivity |].
  rewrite for_each_cons, In59_body_run. simpl List.filter.
  destruct (bool_decide (Metadata.tcp_id_of f ∈ filekeys)).
  - rewrite for_each_cons.
    destruct (Metadata.In4_body w f (tr, g)) as [s' [[] | e]];
      [apply IH | reflexivity].
  - apply IH.
Qed.

(** X6.  The metadata loop of similarity.py is the loop of metadata.py run
    on the files whose TCP ID is among [filekeys]: same calls, same rows,
    same end, from every state.  So every label it adds to [index] is one
    of the file keys of the texts. *)
Theorem similarity_loop_is_filtered_metadata_loop
    (w : World) (filekeys files : list string)
    (tr : list Effect) (g : Metadata.Globals)
    (Hindex : Forall (fun label => label ∈ filekeys) (Metadata.index g)) :
  Metadata.In59_loop w filekeys files (tr, g)
  = Metadata.In4_loop w (Metadata.admitted filekeys files) (tr, g)
  /\ Forall (fun label => label ∈ filekeys)
            (Metadata.index (globals_of (Metadata.In59_loop w filekeys files (tr, g)))).
Proof.
  split; [apply In59_is_In4_on_admitted |].
  rewrite In59_is_In4_on_admitted.
  destruct (In4_loop_stops w (Metadata.admitted filekeys files) tr g)
    as (done & rest & Hfiles & _ & Hg & _).
  rewrite Hg. unfold Metadata.with_rows. simpl.
  apply Forall_app. split; [exact Hindex |].
  apply Forall_forall. intros label Hlabel.
  apply list_elem_of_fmap in Hlabel as (f & -> & Hf).
  assert (Hin : f ∈ Metadata.admitted filekeys files).
  { rewrite Hfiles. apply elem_of_app. left. exact Hf. }
  unfold Metadata.admitted in Hin. apply list_elem_of_In, filter_In in Hin as [_ Hkey].
  apply bool_decide_eq_true_1 in Hkey. exact Hkey.
Qed.

Lemma similarity_loop_is_filtered_metadata_loop_witness :
  Metadata.index
    (globals_of (Metadata.In59_loop Examples.header_world ["A00002"]
                   [Examples.header_1; Examples.header_2; Examples.header_3]
                   ([], Metadata.no_globals)))
  = ["A00002"].
Proof.
  destruct (similarity_loop_is_filtered_metadata_loop Examples.header_world
              ["A00002"] [Examples.header_1; Examples.header_2; Examples.header_3]
              [] Metadata.no_globals (List.Forall_nil _)) as [Hrun _].
  rewrite Hrun. reflexivity.
Defined.

(** ** The edge list of metadata.py *)

Section EdgeList.
Variable standardize_str : string -> string.

Lemma printers_run (tcp_id : string) (date : option string)
    (named : list Element) :
  Forall (fun p => Edges.has_text p = true) named ->
  forall (others : list Element) tr g,
    for_each (named ++ others)
      (fun p => name <- lift (Metadata.standardize_name standardize_str (text p)) ;;
                modify (Metadata.append_edge (Metadata.mkEdge tcp_id name date)))
      (tr, g)
    = for_each others
        (fun p => name <- lift (Metadata.standardize_name standardize_str (text p)) ;;
                  modify (Metadata.append_edge (Metadata.mkEdge tcp_id name date)))
        (tr, Edges.add_edges (Edges.edges_of standardize_str tcp_id date named) g).
Proof.
  induction 1 as [| p named Hp _ IH]; intros others tr g.
  - simpl. unfold Edges.add_edges, Edges.edges_of. simpl.
    rewrite app_nil_r. destruct g; reflexivity.
  - simpl app. rewrite for_each_cons.
    unfold Edges.has_text in Hp. destruct (text p) as [name |] eqn:Htext;
      [| discriminate].
    unfold bind at 1, lift at 1. simpl Metadata.standardize_name.
    unfold modify at 1. simpl fst. simpl snd.
    rewrite IH. f_equal. f_equal.
    unfold Edges.add_edges, Edges.edges_of, Metadata.append_edge. simpl.
    rewrite Htext. simpl. rewrite <- app_assoc. reflexivity.
Qed.

Lemma In22_body_run (w : World) (f : string) tr g :
  Metadata.In22_body standardize_str w f (tr, g)
  = match file_xml w f with
    | None => ((tr ++ [ParseXml f], g), Raise ParseError)
    | Some metadata =>
        for_each (findall_printers metadata)
          (fun p => name <- lift (Metadata.standardize_name standardize_str (text p)) ;;
                    modify (Metadata.append_edge
                              (Metadata.mkEdge (Metadata.tcp_id_of f) name
                                 (Metadata.date (Metadata.row_of metadata)))))
          (tr ++ [ParseXml f], g)
    end.
Proof.
  unfold Metadata.In22_body. unfold bind at 1. rewrite parse_run.
  destruct (file_xml w f) as [metadata |]; [| reflexivity].
  unfold bind at 1. rewrite get_date_run. reflexivity.
Qed.

(** X7.  For a header file that parses and whose printers all have a name,
    the loop body of cell In[22] appends exactly one edge per printer, in
    document order, each with the file's TCP ID, the standardised name and
    the same date as the file's row in the table (which may be [None]: a
    missing date stops nothing); a file without printers adds no edge.  The
    table lists are not touched. *)
Theorem edges_of_a_file
    (w : World) (f : string) (metadata : Element)
    (tr : list Effect) (g : Metadata.Globals)
    (Hparse : file_xml w f = Some metadata)
    (Hnames : Forall (fun p => Edges.has_text p = true) (findall_printers metadata)) :
  Metadata.In22_body standardize_str w f (tr, g)
  = ((tr ++ [ParseXml f],
      Edges.add_edges
        (Edges.edges_of standardize_str (Metadata.tcp_id_of f)
           (Metadata.date (Metadata.row_of metadata)) (findall_printers metadata))
        g),
     Ok tt)
  /\ length (Edges.edges_of standardize_str (Metadata.tcp_id_of f)
               (Metadata.date (Metadata.row_of metadata)) (findall_printers metadata))
     = length (findall_printers metadata)
  /\ Forall (fun e => Metadata.edge_text e = Metadata.tcp_id_of f
                      /\ Metadata.edge_date e
                         = Metadata.date (Metadata.row_of metadata))
            (Edges.edges_of standardize_str (Metadata.tcp_id_of f)
               (Metadata.date (Metadata.row_of metadata)) (findall_printers metadata)).
Proof.
  split; [| split].
  - rewrite In22_body_run, Hparse.
    rewrite <- (app_nil_r (findall_printers metadata)) at 1.
    rewrite (printers_run _ _ _ Hnames []). reflexivity.
  - unfold Edges.edges_of.
    induction Hnames as [| p ps Hp _ IH]; [reflexivity |].
    unfold Edges.has_text in Hp. simpl. destruct (text p); [| discriminate].
    simpl. f_equal. exact IH.
  - unfold Edges.edges_of. clear Hnames.
    induction (findall_printers metadata) as [| p ps IH]; [constructor |].
    simpl. destruct (text p); simpl; [constructor; auto | exact IH].
Qed.

(** X8.  The printer's name is not guarded: at the first <persName> without
    a text, [standardize_name] is called on [None] and the loop body of cell
    In[22] ends with AttributeError, after the edges of the printers before
    it in that file. *)
Theorem unnamed_printer_raises
    (w : World) (f : string) (metadata : Element)
    (named rest : list Element) (p : Element)
    (tr : list Effect) (g : Metadata.Globals)
    (Hparse : file_xml w f = Some metadata)
    (Hprinters : findall_printers metadata = named ++ p :: rest)
    (Hnamed : Forall (fun q => Edges.has_text q = true) named)
    (Hp : text p = None) :
  Metadata.In22_body standardize_str w f (tr, g)
  = ((tr ++ [ParseXml f],
      Edges.add_edges
        (Edges.edges_of standardize_str (Metadata.tcp_id_of f)
           (Metadata.date (Metadata.row_of metadata)) named)
        g),
     Raise AttributeError).
Proof.
  rewrite In22_body_run, Hparse, Hprinters.
  rewrite (printers_run _ _ _ Hnamed (p :: rest)).
  rewrite for_each_cons. unfold bind at 1, lift at 1. rewrite Hp. reflexivity.
Qed.

End EdgeList.

Lemma edges_of_a_file_witness :
  Metadata.edgelist
    (globals_of (Metadata.In22_body (fun s => s) Samples.printers_world
                   Examples.header_1 ([], Metadata.no_globals)))
  = [Metadata.mkEdge "A00001" "A. Maxwell" (Some "1666")].
Proof.
  destruct (edges_of_a_file (fun s => s) Samples.printers_world Examples.header_1
              Examples.printer_header [] Metadata.no_globals eq_refl)
    as (Hrun & _).
  - repeat constructor.
  - rewrite Hrun. reflexivity.
Defined.

Lemma unnamed_printer_raises_witness :
  Metadata.In22_body (fun s => s) Samples.printers_world Examples.header_2
    ([], Metadata.no_globals)
  = (([ParseXml Examples.header_2],
      Metadata.mkGlobals [] [] [Metadata.mkEdge "A00002" "Tho. Newcomb" None]),
     Raise AttributeError).
Proof.
  rewrite (unnamed_printer_raises (fun s => s) Samples.printers_world
             Examples.header_2 Samples.unnamed_printer_header
             [Examples.elem "persName" ∅ (Some "Tho. Newcomb") []] []
             (Examples.elem "persName" ∅ None [])
             [] Metadata.no_globals eq_refl eq_refl).
  - reflexivity.
  - repeat constructor.
  - reflexivity.
Defined.

(** ** get_sentences: when it raises, and which tokens it files *)



(** Induction on elements, with the property known for all children. *)
Lemma Element_children_ind (P : Element -> Prop) :
  (forall tg at_ tx cs, Forall P cs -> P (Elem tg at_ tx cs)) ->
  forall e, P e.
Proof.
  intros Hstep. fix IH 1. intros [tg at_ tx cs]. apply Hstep.
  induction cs as [| c cs IHcs]; constructor; [apply IH | exact IHcs].
Qed.

Lemma iter_prev_elements (e : Element) :
  forall previous, map snd (iter_prev previous e) = iter e.
Proof.
  induction e as [tg at_ tx cs IHcs] using Element_children_ind.
  intros previous. unfold iter. simpl. f_equal.
  generalize (@None Element) as p.
  induction IHcs as [| c cs Hc _ IH]; intros p; [reflexivity |].
  rewrite map_app, Hc, IH. reflexivity.
Qed.

Lemma filter_w_pairs (pairs : list (option Element * Element)) :
  map snd (filter (fun pe => matches_any_ns "w" (snd pe) = true) pairs)
  = filter (fun e => matches_any_ns "w" e = true) (map snd pairs).
Proof.
  induction pairs as [| [p e] pairs IH]; [reflexivity |].
  simpl map. rewrite !filter_cons. simpl snd.
  destruct (decide (matches_any_ns "w" e = true)); simpl; rewrite IH; reflexivity.
Qed.

Lemma iter_w_prev_elements (root : Element) :
  matches_any_ns "w" root = false ->
  map snd (iter_w_prev root) = findall_any_ns "w" root.
Proof.
  intros Hroot. unfold iter_w_prev, findall_any_ns.
  rewrite filter_w_pairs, iter_prev_elements. unfold iter.
  rewrite filter_cons, decide_False; [reflexivity |].
  rewrite Hroot. discriminate.
Qed.

Lemma tokens_of_words_with_text lower (words : list (option Element * Element)) :
  Forall (fun pw => text (snd pw) <> None) words ->
  Word2Vec.tokens_of lower words
  = Ok (omap (Tokens.token_if_text lower "lemma") (map snd words)).
Proof.
  induction 1 as [| [p word] words Hw _ IH]; [reflexivity |].
  simpl. rewrite IH. simpl in Hw.
  unfold Word2Vec.token_of, Tokens.token_if_text.
  destruct (text word) as [t |]; [| congruence].
  rewrite get_text_with_text. reflexivity.
Qed.

(** X10.  For a document whose root is no <w> and whose <w> elements all
    have a text, [get_sentences] ends normally and loses or reorders no
    token: the sentences it has filed, followed by the sentence still open
    when it returns, spell out exactly the list [words] that similarity.py
    builds from the same document. *)
Theorem sentences_spell_out_the_words_of_similarity
    (lower : string -> string) (root : Element)
    (tr : list Effect) (g : Word2Vec.Globals)
    (Hroot : matches_any_ns "w" root = false)
    (Htext : Words.words_have_text (descendants root) = true) :
  exists (added : list (list string)) (last : list string),
    globals_of (Word2Vec.get_sentences_loop lower (iter_w_prev root) [] (tr, g))
    = g ++ added
    /\ outcome_of (Word2Vec.get_sentences_loop lower (iter_w_prev root) [] (tr, g))
       = Ok last
    /\ Tokens.words_of lower "lemma" (findall_any_ns "w" root)
       = Ok (concat added ++ last).
Proof.
  assert (Hall : Forall (fun e => text e <> None) (findall_any_ns "w" root)).
  { unfold findall_any_ns. apply Forall_forall. intros e He.
    apply list_elem_of_filter in He as [Hw Hin].
    unfold Words.words_have_text in Htext. rewrite forallb_forall in Htext.
    specialize (Htext e (proj1 (list_elem_of_In _ _) Hin)).
    rewrite Hw in Htext. simpl in Htext.
    destruct (text e); [discriminate | discriminate]. }
  rewrite <- (iter_w_prev_elements root Hroot) in Hall.
  apply (proj1 (List.Forall_map snd (fun e => text e <> None) (iter_w_prev root)))
    in Hall.
  pose proof (tokens_of_words_with_text lower (iter_w_prev root) Hall) as Htoks.
  rewrite (iter_w_prev_elements root Hroot), <- words_of_omap in Htoks.
  destruct (get_sentences_loop_outcome lower (iter_w_prev root) [] tr g)
    as (added & Hg & Hout).
  destruct (outcome_of _) as [last | e].
  - destruct Hout as (_ & toks & Htoks' & Hcat).
    exists added, last. split; [exact Hg |]. split; [reflexivity |].
    rewrite <- Htoks, Htoks', Hcat. reflexivity.
  - destruct Hout as (_ & Hraise). rewrite Hraise, words_of_omap in Htoks.
    discriminate Htoks.
Qed.

Lemma sentences_spell_out_the_words_of_similarity_witness :
  Tokens.words_of ascii_lower "lemma" (findall_any_ns "w" Examples.arms_line)
  = Ok ["arm"; "and"; "the"; "man"].
Proof.
  destruct (sentences_spell_out_the_words_of_similarity ascii_lower
              Examples.arms_line [] [] eq_refl eq_refl)
    as (added & last & _ & _ & Hwords).
  rewrite Hwords.
  assert (Hcheck : Tokens.words_of ascii_lower "lemma"
                     (findall_any_ns "w" Examples.arms_line)
                   = Ok ["arm"; "and"; "the"; "man"]) by reflexivity.
  rewrite Hwords in Hcheck. exact Hcheck.
Defined.

(** ** The token lists and the count table *)

Lemma tokenize_file_run lower attr (w : World) (f : string) tr g :
  Tokens.tokenize_file lower attr w f (tr, g)
  = match file_xml w f with
    | Some xml =>
        ((tr ++ [ParseXml f], g ++ [Words.tokens_of_file lower attr w f]), Ok tt)
    | None => ((tr ++ [ParseXml f], g), Raise ParseError)
    end.
Proof.
  unfold Tokens.tokenize_file, Words.tokens_of_file.
  unfold bind at 1. rewrite parse_run.
  destruct (file_xml w f) as [xml |]; [| reflexivity].
  unfold bind, lift, modify. rewrite words_of_omap. reflexivity.
Qed.

(** X11.  The tokenizing loop of tf_idf.py and similarity.py can only stop
    at a file that does not parse, with the parser's error; no document
    content makes it raise.  However it ends, [all_tokenized] has grown by
    exactly one token list per file before that point, in file order, so
    the rows of the count table line up with the file names. *)
Theorem tokenize_loop_one_list_per_file :
  forall (lower : string -> string) (attr : string) (w : World)
         (files : list string) (tr : list Effect) (g : Tokens.Globals),
    exists done rest : list string,
      files = done ++ rest
      /\ Forall (fun f => is_Some (file_xml w f)) done
      /\ Tokens.tokenize_loop lower attr w files (tr, g)
         = ((tr ++ map ParseXml done
                ++ match rest with [] => [] | bad :: _ => [ParseXml bad] end,
             g ++ map (Words.tokens_of_file lower attr w) done),
            match rest with [] => Ok tt | _ :: _ => Raise ParseError end)
      /\ match rest with [] => True | bad :: _ => file_xml w bad = None end.
Proof.
  intros lower attr w files. unfold Tokens.tokenize_loop.
  induction files as [| f files IH]; intros tr g.
  - exists [], []. simpl. unfold ret. rewrite !app_nil_r. auto.
  - rewrite for_each_cons, tokenize_file_run.
    destruct (file_xml w f) as [xml |] eqn:Hf.
    + destruct (IH (tr ++ [ParseXml f]) (g ++ [Words.tokens_of_file lower attr w f]))
        as (done & rest & Hfiles & Hdone & Hrun & Hrest).
      exists (f :: done), rest. split; [simpl; congruence |].
      split; [constructor; [rewrite Hf; eauto | exact Hdone] |].
      split; [| exact Hrest].
      rewrite Hrun. simpl. rewrite <- !app_assoc. reflexivity.
    + exists [], (f :: files). simpl. rewrite app_nil_r. auto.
Qed.

(** X12.  The count table has a column for a term exactly when the term
    occurs in the token list of some text. *)
Theorem columns_are_the_terms_that_occur :
  forall (all_tokenized : list (list string)) (term : string),
    term ∈ Tokens.columns (Tokens.all_counted all_tokenized)
    <-> exists a, In a all_tokenized /\ In term a.
Proof. exact elem_of_columns. Qed.

(** X13.  [Counter(a)] depends on the tokens of [a] and not on their order:
    two token lists give the same counter exactly when one is a
    rearrangement of the other. *)
Theorem counter_ignores_order :
  forall a b : list string,
    Tokens.Counter a = Tokens.Counter b <-> Permutation a b.
Proof.
  intros a b. rewrite (Permutation_count_occ string_dec). split.
  - intros Heq term.
    assert (Hl : Tokens.Counter a !! term = Tokens.Counter b !! term)
      by (rewrite Heq; reflexivity).
    rewrite !Counter_lookup in Hl.
    destruct (count_occ string_dec a term), (count_occ string_dec b term);
      congruence.
  - intros Hcount. apply map_eq. intros term.
    rewrite !Counter_lookup, (Hcount term). reflexivity.
Qed.

(** ** ep_xml.py: nouns, lines and books *)

(** X14.  The noun filter of ep_xml.py (cells In[8] and In[19]) ends
    normally exactly when every <w> has a [pos] attribute, and raises
    AttributeError otherwise; when it ends normally it keeps, in document
    order, the value of exactly the tags whose [pos] begins with "n". *)
Theorem noun_filter_needs_pos_everywhere :
  forall (value : Element -> option string) (tags : list Element),
    is_ok (EpXmlCells.nouns_of value tags) = forallb EpXmlCells.has_pos tags
    /\ match EpXmlCells.nouns_of value tags with
       | Ok nouns => nouns = map value (List.filter EpXmlCells.is_noun tags)
       | Raise e => e = AttributeError
       end.
Proof.
  intros value tags. induction tags as [| w rest [IHok IHval]]; simpl.
  - auto.
  - unfold EpXmlCells.has_pos at 1, EpXmlCells.is_noun at 1.
    destruct (attrib w !! "pos") as [pos |].
    + rewrite bool_decide_eq_true_2 by eauto. simpl.
      destruct (EpXmlCells.nouns_of value rest) as [nouns | e]; simpl in *.
      * split; [exact IHok |]. subst nouns.
        destruct (EpXmlCells.startswith_n pos); reflexivity.
      * split; [exact IHok | exact IHval].
    + rewrite bool_decide_eq_false_2 by (intros [? ?]; discriminate).
      simpl. auto.
Qed.

Lemma descendants_children tg at_ tx cs :
  descendants (Elem tg at_ tx cs) = flat_map iter cs.
Proof.
  simpl. induction cs as [| c cs IH]; [reflexivity |].
  simpl. rewrite IH. reflexivity.
Qed.

Lemma descendants_trans (root : Element) :
  forall x y, In x (descendants root) -> In y (descendants x) ->
              In y (descendants root).
Proof.
  induction root as [tg at_ tx cs IHcs] using Element_children_ind.
  intros x y Hx Hy. rewrite descendants_children in *.
  apply in_flat_map in Hx as (c & Hc & Hxc).
  apply in_flat_map. exists c. split; [exact Hc |].
  destruct Hxc as [<- | Hxc].
  - right. exact Hy.
  - right. rewrite List.Forall_forall in IHcs. apply (IHcs c Hc x y Hxc Hy).
Qed.

Lemma findall_tei_below name root x e :
  In x (descendants root) -> In e (EpXmlCells.findall_tei name x) ->
  In e (EpXmlCells.findall_tei name root).
Proof.
  unfold EpXmlCells.findall_tei. intros Hx He.
  apply list_elem_of_In, list_elem_of_filter in He as [Hm He].
  apply list_elem_of_In, list_elem_of_filter. split; [exact Hm |].
  apply list_elem_of_In. apply (descendants_trans root x e Hx).
  apply list_elem_of_In. exact He.
Qed.

(** X15.  The per-line and per-book word lists of ep_xml.py hold nothing
    that the plain word list does not: every word listed under some <l>
    (cell In[10]) or under some book (cell In[18]) is one of [all_words]. *)
Theorem words_by_line_and_book_are_words
    (paradiselost : Element) (words : list (option string)) (word : option string)
    (Hlisted : In words (EpXmlCells.words_by_line paradiselost)
               \/ In words (EpXmlCells.words_by_book paradiselost))
    (Hword : In word words) :
  In word (EpXmlCells.all_words paradiselost).
Proof.
  unfold EpXmlCells.words_by_line, EpXmlCells.words_by_book,
    EpXmlCells.all_words, EpXmlCells.all_word_tags in *.
  assert (Hbelow : exists x, In x (descendants paradiselost)
                             /\ words = map text (EpXmlCells.findall_tei "w" x)).
  { destruct Hlisted as [H | H]; apply in_map_iff in H as (x & <- & Hx);
      exists x; split; try reflexivity.
    - unfold EpXmlCells.all_line_tags, EpXmlCells.findall_tei in Hx.
      apply list_elem_of_In, list_elem_of_filter in Hx as [_ Hx].
      apply list_elem_of_In. exact Hx.
    - unfold EpXmlCells.all_books in Hx.
      apply list_elem_of_In, list_elem_of_filter in Hx as [_ Hx].
      apply list_elem_of_In. exact Hx. }
  destruct Hbelow as (x & Hx & ->).
  apply in_map_iff in Hword as (e & <- & He).
  apply in_map. apply (findall_tei_below "w" paradiselost x e Hx He).
Qed.

Lemma words_by_line_and_book_are_words_witness :
  In (Some "Mans") (EpXmlCells.all_words Samples.two_books).
Proof.
  apply (words_by_line_and_book_are_words Samples.two_books
           [Some "Of"; Some "Mans"] (Some "Mans")).
  - right. left. reflexivity.
  - right. left. reflexivity.
Defined.

(** ** The sentence loop of ep_xml.py, piece by piece *)

Lemma sentence_loop_from (tags : list Element) :
  forall all_s new_s,
    fold_left EpXml.sentence_step tags (all_s, new_s)
    = (all_s ++ fst (fold_left EpXml.sentence_step tags ([], new_s)),
       snd (fold_left EpXml.sentence_step tags ([], new_s))).
Proof.
  induction tags as [| tag rest IH]; intros all_s new_s; simpl.
  - rewrite app_nil_r. reflexivity.
  - destruct (EpXml.ends_sentence tag).
    + rewrite (IH (all_s ++ _)), (IH [_]). simpl.
      rewrite <- app_assoc. reflexivity.
    + apply IH.
Qed.

(** X16.  The sentence loop of ep_xml.py can be run in pieces: when the
    first piece ends at a sentence marker (no sentence is open after it),
    the sentences of the whole are the sentences of the first piece followed
    by those of the second, and the open sentence is that of the second. *)
Theorem sentence_loop_composes
    (tags1 tags2 : list Element)
    (Hclosed : EpXml.new_sentence tags1 = []) :
  EpXml.all_sentences (tags1 ++ tags2)
  = EpXml.all_sentences tags1 ++ EpXml.all_sentences tags2
  /\ EpXml.new_sentence (tags1 ++ tags2) = EpXml.new_sentence tags2.
Proof.
  unfold EpXml.all_sentences, EpXml.new_sentence, EpXml.sentence_loop in *.
  rewrite fold_left_app.
  destruct (fold_left EpXml.sentence_step tags1 ([], [])) as [all1 new1].
  simpl in Hclosed. subst new1. rewrite sentence_loop_from. auto.
Qed.

Lemma sentence_loop_composes_witness :
  EpXml.all_sentences Examples.arms_and_the_man
  = [[Some "Arms"; Some "."]] ++ [[Some "And"]].
Proof.
  destruct (sentence_loop_composes (firstn 2 Examples.arms_and_the_man)
              (skipn 2 Examples.arms_and_the_man) eq_refl) as [Hall _].
  exact Hall.
Defined.

(** ** standardize_name: the cleaning steps *)

Lemma has_char_remove_same c s :
  Paths.has_char c (Names.remove_char c s) = false.
Proof.
  induction s as [| c' s IH]; simpl; [reflexivity |].
  destruct (Ascii.eqb c' c) eqn:Hc; simpl; [exact IH |].
  rewrite Hc, IH. reflexivity.
Qed.

Lemma has_char_remove_other c d s :
  Paths.has_char c s = false -> Paths.has_char c (Names.remove_char d s) = false.
Proof.
  induction s as [| c' s IH]; simpl; [reflexivity |].
  intros H. apply orb_false_elim in H as [Hc Hs].
  destruct (Ascii.eqb c' d); simpl; [auto |]. rewrite Hc. auto.
Qed.

Lemma has_char_lstrip c chars s :
  Paths.has_char c s = false -> Paths.has_char c (Names.lstrip chars s) = false.
Proof.
  induction s as [| c' s IH]; simpl; [reflexivity |].
  intros H. destruct (Names.in_chars chars c').
  - apply orb_false_elim in H as [_ Hs]. auto.
  - exact H.
Qed.

Lemma has_char_rstrip c chars s :
  Paths.has_char c s = false -> Paths.has_char c (Names.rstrip chars s) = false.
Proof.
  induction s as [| c' s IH]; simpl; [reflexivity |].
  intros H. apply orb_false_elim in H as [Hc Hs]. specialize (IH Hs).
  destruct (Names.rstrip chars s) as [| k kept].
  - destruct (Names.in_chars chars c'); simpl; [reflexivity |].
    rewrite Hc. reflexivity.
  - simpl in *. rewrite Hc. exact IH.
Qed.

Lemma has_char_replace c old new s :
  Paths.has_char c new = false ->
  Paths.has_char c s = false ->
  forall skip, Paths.has_char c (Names.replace_from skip old new s) = false.
Proof.
  intros Hnew. induction s as [| c' s IH]; intros Hs skip; simpl; [reflexivity |].
  simpl in Hs. apply orb_false_elim in Hs as [Hc Hs].
  destruct skip as [| k]; [| apply IH; exact Hs].
  destruct (Names.starts_with old (String c' s)).
  - rewrite has_char_app, Hnew. simpl. apply IH. exact Hs.
  - simpl. rewrite Hc. apply IH. exact Hs.
Qed.

(** X17.  Whatever the name, the cleaning steps of [standardize_name]
    (lines 166-168) leave no bracket in it: the later stripping and the
    respelling of "Iohn" bring none back. *)
Theorem clean_name_has_no_brackets :
  forall name : string,
    Paths.has_char "[" (Names.clean_name name) = false
    /\ Paths.has_char "]" (Names.clean_name name) = false.
Proof.
  intros name. unfold Names.clean_name, Names.replace, Names.strip. cbv zeta.
  split; apply has_char_replace; try reflexivity;
    apply has_char_rstrip, has_char_lstrip.
  - apply has_char_remove_other, has_char_remove_same.
  - apply has_char_remove_same.
Qed.

Lemma remove_char_absent c s :
  Paths.has_char c s = false -> Names.remove_char c s = s.
Proof.
  induction s as [| c' s IH]; simpl; [reflexivity |].
  intros H. apply orb_false_elim in H as [Hc Hs].
  rewrite Hc, (IH Hs). reflexivity.
Qed.

Lemma lstrip_unchanged chars s :
  Names.first_in chars s = false -> Names.lstrip chars s = s.
Proof. destruct s as [| c s]; simpl; [reflexivity |]. intros ->. reflexivity. Qed.

Lemma rstrip_unchanged chars s :
  Names.last_in chars s = false -> Names.rstrip chars s = s.
Proof.
  induction s as [| c s IH]; [reflexivity |].
  destruct s as [| d s'].
  - simpl. intros ->. reflexivity.
  - intros H. change (Names.last_in chars (String d s') = false) in H.
    change (Names.rstrip chars (String c (String d s')))
      with (match Names.rstrip chars (String d s') with
            | EmptyString =>
                if Names.in_chars chars c then EmptyString else String c EmptyString
            | kept => String c kept
            end).
    rewrite (IH H). reflexivity.
Qed.

Lemma replace_absent old new s :
  Names.contains old s = false -> Names.replace old new s = s.
Proof.
  unfold Names.replace. induction s as [| c s IH]; [reflexivity |].
  intros H. simpl in H. apply orb_false_elim in H as [Hstart Hrest].
  simpl Names.replace_from.
  change (match old with
          | EmptyString => true
          | String p prefix' => Ascii.eqb p c && Names.starts_with prefix' s
          end) with (Names.starts_with old (String c s)).
  rewrite Hstart, (IH Hrest). reflexivity.
Qed.

(** X18.  The cleaning steps change nothing in a name that needs no
    cleaning: one without brackets, that neither begins nor ends with a
    comma or an apostrophe, and in which "Iohn" does not occur. *)
Theorem clean_name_keeps_a_clean_name
    (name : string)
    (Hopen : Paths.has_char "[" name = false)
    (Hclose : Paths.has_char "]" name = false)
    (Hfirst : Names.first_in ["," ; "'"]%char name = false)
    (Hlast : Names.last_in ["," ; "'"]%char name = false)
    (Hiohn : Names.contains "Iohn" name = false) :
  Names.clean_name name = name.
Proof.
  unfold Names.clean_name, Names.strip. cbv zeta.
  rewrite (remove_char_absent "[" name Hopen), (remove_char_absent "]" name Hclose).
  rewrite (lstrip_unchanged _ name Hfirst), (rstrip_unchanged _ name Hlast).
  apply replace_absent. exact Hiohn.
Qed.

Lemma clean_name_keeps_a_clean_name_witness :
  Names.clean_name "Thomas Newcomb" = "Thomas Newcomb".
Proof.
  apply (clean_name_keeps_a_clean_name "Thomas Newcomb"); reflexivity.
Defined.

(** ** metadata.py, cell In[3]: one header, nothing guarded *)

(** X19.  The single-header cell of metadata.py guards none of its
    lookups: it ends normally exactly when the header has a title, an
    author, a date and a printer's name element, and otherwise stops with
    AttributeError at the first one missing; it has shown output exactly
    when the title was found. *)
Theorem single_header_cell_needs_every_field :
  forall (metadata : Element) (s : list Effect * Metadata.Globals),
    is_ok (outcome_of (Scripts.In3_prints metadata s))
    = Tokens.is_not_None (find_desc_desc "sourceDesc" "title" metadata)
      && Tokens.is_not_None (find_desc_desc "sourceDesc" "author" metadata)
      && Tokens.is_not_None (find_desc_desc "sourceDesc" "date" metadata)
      && Tokens.is_not_None (head (findall_printers metadata))
    /\ match outcome_of (Scripts.In3_prints metadata s) with
       | Ok _ => True
       | Raise e => e = AttributeError
       end
    /\ trace_of (Scripts.In3_prints metadata s)
       = fst s ++ (if Tokens.is_not_None
                        (find_desc_desc "sourceDesc" "title" metadata)
                   then [Display] else [])
    /\ globals_of (Scripts.In3_prints metadata s) = snd s.
Proof.
  intros metadata [tr g].
  unfold Scripts.In3_prints, bind, lift, emit, ret, text_of_found, get_of_found,
    outcome_of, trace_of, globals_of.
  destruct (find_desc_desc "sourceDesc" "title" metadata); simpl;
    [| rewrite app_nil_r; auto].
  destruct (find_desc_desc "sourceDesc" "author" metadata); simpl; [| auto].
  destruct (find_desc_desc "sourceDesc" "date" metadata); simpl; [| auto].
  destruct (head (findall_printers metadata)); simpl; auto.
Qed.

(** ** similarity.py: joining texts and metadata by ID *)

(** X20.  The two notebooks' file names meet on the ID: for an [ID] without
    "/", "_" or ".", the key of the text file [texts/ID.xml] and the TCP ID
    of the header file [headers/ID_rest] are both [ID].  So when the text is
    among [filenames], the loop of similarity.py admits its header. *)
Theorem header_of_a_listed_text_is_admitted
    (texts headers id rest : string) (filenames : list string)
    (Hslash : Paths.has_char "/" id = false)
    (Hunder : Paths.has_char "_" id = false)
    (Hdot : Paths.has_char "." id = false)
    (Hrest : Paths.has_char "/" rest = false)
    (Hlisted : In (texts +:+ String "/" (id +:+ ".xml")) filenames) :
  Metadata.filekey_of (texts +:+ String "/" (id +:+ ".xml")) = id
  /\ Metadata.tcp_id_of (headers +:+ String "/" (id +:+ String "_" rest)) = id
  /\ Metadata.admitted (map Metadata.filekey_of filenames)
       [headers +:+ String "/" (id +:+ String "_" rest)]
     = [headers +:+ String "/" (id +:+ String "_" rest)].
Proof.
  assert (Hkey : Metadata.filekey_of (texts +:+ String "/" (id +:+ ".xml")) = id).
  { unfold Metadata.filekey_of. rewrite last_split_dir.
    - apply (hd_split_stem "." id "xml"). exact Hdot.
    - rewrite has_char_app, Hslash. reflexivity. }
  assert (Hid : Metadata.tcp_id_of (headers +:+ String "/" (id +:+ String "_" rest))
                = id)
    by (apply tcp_id_of_header; assumption).
  split; [exact Hkey |]. split; [exact Hid |].
  unfold Metadata.admitted. simpl. rewrite Hid.
  rewrite bool_decide_eq_true_2; [reflexivity |].
  apply list_elem_of_In, in_map_iff.
  exists (texts +:+ String "/" (id +:+ ".xml")). auto.
Qed.

Lemma header_of_a_listed_text_is_admitted_witness :
  Metadata.admitted (map Metadata.filekey_of ["1666_texts/A53049.xml"])
    ["../../epmetadata/header/A53049_header.xml"]
  = ["../../epmetadata/header/A53049_header.xml"].
Proof.
  apply (header_of_a_listed_text_is_admitted "1666_texts" "../../epmetadata/header"
           "A53049" "header.xml" ["1666_texts/A53049.xml"]);
    try reflexivity.
  left. reflexivity.
Defined.

Lemma columns_are_the_terms_that_occur_witness :
  "fire" ∈ Tokens.columns (Tokens.all_counted [["the"; "fire"]; ["smoke"]]).
Proof.
  apply (proj2 (columns_are_the_terms_that_occur [["the"; "fire"]; ["smoke"]] "fire")).
  exists ["the"; "fire"]. split; [left; reflexivity | right; left; reflexivity].
Defined.

Lemma counter_ignores_order_witness :
  Tokens.Counter ["the"; "fire"; "the"] = Tokens.Counter ["fire"; "the"; "the"].
Proof.
  apply (proj2 (counter_ignores_order ["the"; "fire"; "the"] ["fire"; "the"; "the"])).
  apply perm_swap.
Defined.
